(** * Precision Agriculture ML backend (app.py): prediction, risk and crop rules

    A shallow embedding of [Precision-agriculture-backend/app.py].

    Numbers.  Python floats and ints are idealised as exact rationals [Q];
    the one non-finite value the code can produce, the [nan] that
    [np.mean] returns on an empty list, is kept apart in [npfloat].
    Exceptions are values of [exn], carried by [result].  The fitted
    scikit-learn objects are outside the repository: a regressor is its
    [predict] function and a scaler its [transform] function. *)

From Stdlib Require Import QArith Qround Qabs Qminmax Lqa ZArith ZifyNat List.
From stdpp Require Import gmap strings.

Local Open Scope Q_scope.
Local Open Scope string_scope.

(** ** Exceptions and results *)

Inductive exn : Type :=
  | KeyError (key : string)
  | IndexError
  | TypeError
  | AttributeError
  | NotFittedError
  | ZeroDivisionError
  | OSError.

Inductive result (A : Type) : Type :=
  | Ok (a : A)
  | Raise (e : exn).
Arguments Ok {A} a.
Arguments Raise {A} e.

(** Sequencing: the first exception raised ends the computation. *)
#[global] Instance result_ret : MRet result := fun A a => Ok a.
#[global] Instance result_bind : MBind result := fun A B k m =>
  match m with
  | Ok a => k a
  | Raise e => Raise e
  end.

(** [d[key]] on a dict and [l[i]] on a list. *)
Definition getitem {V : Type} (d : gmap string V) (key : string) : result V :=
  match d !! key with
  | Some v => Ok v
  | None => Raise (KeyError key)
  end.

Definition index {A : Type} (l : list A) (i : nat) : result A :=
  match l !! i with
  | Some x => Ok x
  | None => Raise IndexError
  end.

(** ** Numbers *)

Definition Qltb (x y : Q) : bool := negb (Qle_bool y x).

(** Round to the nearest integer, ties to the even one. *)
Definition rint (y : Q) : Z :=
  let f := Qfloor y in
  match Qcompare (y - inject_Z f) (1 # 2) with
  | Lt => f
  | Gt => (f + 1)%Z
  | Eq => if Z.even f then f else (f + 1)%Z
  end.

(** [round(x, ndigits)] *)
Definition round (x : Q) (ndigits : nat) : Q :=
  let s := inject_Z (10 ^ Z.of_nat ndigits) in
  Qred (inject_Z (rint (x * s)) / s).

Inductive npfloat : Type :=
  | nan
  | fin (q : Q).

Definition np_map (f : Q -> Q) (x : npfloat) : npfloat :=
  match x with
  | nan => nan
  | fin q => fin (f q)
  end.

Definition Qsum (l : list Q) : Q := fold_right Qplus 0 l.

(** [np.mean(l)]: [nan] on the empty list. *)
Definition np_mean (l : list Q) : npfloat :=
  match l with
  | [] => nan
  | _ => fin (Qsum l / inject_Z (Z.of_nat (length l)))
  end.

(** [x < y] where [x] may be [nan]: every comparison with [nan] is false. *)
Definition np_lt (x : npfloat) (y : Q) : bool :=
  match x with
  | nan => false
  | fin q => Qltb q y
  end.

(** [max(0, y)]: the builtin keeps its first argument unless a later one
    is greater, so [max(0, nan)] is [0]. *)
Definition max0 (y : npfloat) : Q :=
  match y with
  | nan => 0
  | fin q => if Qltb 0 q then q else 0
  end.

(** [np.average(a, weights=w)]: the weighted sum divided by the sum of the
    weights; shapes must agree and the weights must not sum to zero. *)
Definition np_average (a w : list Q) : result Q :=
  if negb (length a =? length w)%nat then Raise TypeError
  else if Qeq_bool (Qsum w) 0 then Raise ZeroDivisionError
  else Ok (Qsum (zip_with Qmult a w) / Qsum w).

(** ** Crop requirements and the compatibility score *)

Record requirement : Type := {
  temp_range : list Q;
  humidity_range : list Q;
  optimal_rainfall : list Q
}.

Definition crop_requirements : gmap string requirement :=
  <["rice" := {| temp_range := [20; 35];
                 humidity_range := [70; 90];
                 optimal_rainfall := [1500; 2000] |}]>
  (<["wheat" := {| temp_range := [12; 25];
                   humidity_range := [50; 70];
                   optimal_rainfall := [500; 750] |}]>
  (<["cotton" := {| temp_range := [21; 30];
                    humidity_range := [60; 80];
                    optimal_rainfall := [600; 1200] |}]> ∅)).

(** [r[0] <= v <= r[1]]: a chained comparison, [r[1]] is only read when
    the first comparison holds. *)
Definition in_range (r : list Q) (v : Q) : result bool :=
  lo ← index r 0;
  if Qle_bool lo v then
    hi ← index r 1;
    Ok (Qle_bool v hi)
  else Ok false.

(** The expression shared by the two score lines of
    [calculate_compatibility_score]:
    [100 if r[0] <= v <= r[1] else max(0, 100 - abs(v - np.mean(r)) * k)]. *)
Definition range_score (r : list Q) (v k : Q) : result Q :=
  inside ← in_range r v;
  if (inside : bool) then Ok 100
  else Ok (max0 (np_map (fun m => 100 - Qabs (v - m) * k) (np_mean r))).

Definition calculate_compatibility_score
    (temp humidity : Q) (requirements : requirement) : result Q :=
  temp_score ← range_score (temp_range requirements) temp 10;
  humidity_score ← range_score (humidity_range requirements) humidity 5;
  Ok (round ((temp_score + humidity_score) / 2) 1).

(** ** Crop recommendations *)

Record recommendation : Type := {
  rec_type : string;
  parameter : string;
  message : string;
  action : string
}.

(** The request body of [/api/crop/recommendations]: both keys are optional. *)
Record crop_request : Type := {
  crop_type : option string;
  weather_data : option (gmap string Q)
}.

(** What the handler hands to [jsonify]: the success payload, or the
    failure payload sent with status 500. *)
Inductive crop_response : Type :=
  | CropSuccess (crop : string) (recommendations : list recommendation)
                (compatibility_score : Q)
  | CropFailure (error : exn).

Section CropAdvisor.

(** How an f-string renders an interpolated number. *)
Variable format_num : Q -> string.

Definition temperature_analysis
    (current_temp : Q) (requirements : requirement) : result recommendation :=
  lo ← index (temp_range requirements) 0;
  if Qltb current_temp lo then
    Ok {| rec_type := "warning";
          parameter := "temperature";
          message := "Temperature (" +:+ format_num current_temp
                       +:+ "°C) is below optimal range";
          action := "Consider protective measures like mulching or row covers" |}
  else
    hi ← index (temp_range requirements) 1;
    if Qltb hi current_temp then
      Ok {| rec_type := "critical";
            parameter := "temperature";
            message := "Temperature (" +:+ format_num current_temp
                         +:+ "°C) is above optimal range";
            action := "Increase irrigation frequency and consider shade netting" |}
    else
      Ok {| rec_type := "success";
            parameter := "temperature";
            message := "Temperature is within optimal range";
            action := "Continue normal operations" |}.

Definition humidity_analysis
    (current_humidity : Q) (requirements : requirement) : result recommendation :=
  lo ← index (humidity_range requirements) 0;
  if Qltb current_humidity lo then
    Ok {| rec_type := "warning";
          parameter := "humidity";
          message := "Humidity (" +:+ format_num current_humidity +:+ "%) is low";
          action := "Increase irrigation frequency" |}
  else
    hi ← index (humidity_range requirements) 1;
    if Qltb hi current_humidity then
      Ok {| rec_type := "warning";
            parameter := "humidity";
            message := "Humidity (" +:+ format_num current_humidity +:+ "%) is high";
            action := "Monitor for fungal diseases and ensure proper ventilation" |}
    else
      Ok {| rec_type := "success";
            parameter := "humidity";
            message := "Humidity levels are optimal";
            action := "Maintain current irrigation schedule" |}.

(** The body of [get_crop_recommendations] once the three inputs are
    read from the request: table lookup with the rice fallback, the two
    analyses in order, then the score. *)
Definition recommend (crop : string) (current_temp current_humidity : Q)
    : result (list recommendation * Q) :=
  rice ← getitem crop_requirements "rice";
  let requirements := default rice (crop_requirements !! crop) in
  t ← temperature_analysis current_temp requirements;
  h ← humidity_analysis current_humidity requirements;
  score ← calculate_compatibility_score current_temp current_humidity requirements;
  Ok ([t; h], score).

Definition get_crop_recommendations (data : crop_request) : crop_response :=
  let crop := default "rice" (crop_type data) in
  let weather := default ∅ (weather_data data) in
  let current_temp := default 28 (weather !! "temp") in
  let current_humidity := default 75 (weather !! "humidity") in
  match recommend crop current_temp current_humidity with
  | Ok (recommendations, score) => CropSuccess crop recommendations score
  | Raise e => CropFailure e
  end.

End CropAdvisor.

(** ** The model container *)

(** A fitted estimator, as its [predict] on one scaled row. *)
Definition regressor : Type := list Q -> Q.

(** A [StandardScaler]: fresh from its constructor, or fitted and then
    known by its [transform] on one row. *)
Inductive scaler : Type :=
  | Unfitted
  | Fitted (transform : list Q -> list Q).

Record ensemble : Type := {
  lr : regressor;
  rf : regressor;
  gb : regressor;
  weights : list Q
}.

(** An entry of [self.models]: the temperature ensemble dict, or a
    single estimator. *)
Inductive model : Type :=
  | EnsembleDict (e : ensemble)
  | Estimator (r : regressor).

Record metrics : Type := {
  mae : Q;
  rmse : Q;
  accuracy : Q
}.

Record WeatherMLModels : Type := {
  models : gmap string model;
  scalers : gmap string scaler
}.

(** [self.performance_metrics]: assigned once in [__init__] from
    literals and never reassigned. *)
Definition performance_metrics : gmap string metrics :=
  <["temperature" := {| mae := 1.2; rmse := 1.8; accuracy := 94.5 |}]>
  (<["humidity" := {| mae := 3.5; rmse := 4.2; accuracy := 92.8 |}]>
  (<["rainfall" := {| mae := 2.1; rmse := 3.0; accuracy := 91.2 |}]>
  (<["airQuality" := {| mae := 5.2; rmse := 6.8; accuracy := 89.5 |}]>
  (<["ensemble" := {| mae := 1.8; rmse := 2.4; accuracy := 95.8 |}]> ∅)))).

(** [m['lr']] needs the dict, [m.predict] needs an estimator. *)
Definition as_ensemble (m : model) : result ensemble :=
  match m with
  | EnsembleDict e => Ok e
  | Estimator _ => Raise TypeError
  end.

Definition as_estimator (m : model) : result regressor :=
  match m with
  | Estimator r => Ok r
  | EnsembleDict _ => Raise AttributeError
  end.

(** [self.scalers['features'].transform([features])] *)
Definition scale (self : WeatherMLModels) (features : list Q) : result (list Q) :=
  sc ← getitem (scalers self) "features";
  match sc with
  | Unfitted => Raise NotFittedError
  | Fitted transform => Ok (transform features)
  end.

Record temperature_prediction : Type := {
  temp : Q;
  confidence : Q
}.

Record prediction : Type := {
  temperature : temperature_prediction;
  humidity : Q;
  rainfall : Q;
  aqi : Q
}.

Definition predict_temperature
    (self : WeatherMLModels) (features : list Q) : result temperature_prediction :=
  X_scaled ← scale self features;
  m ← getitem (models self) "temp_ensemble";
  ens ← as_ensemble m;
  let predictions := [lr ens X_scaled; rf ens X_scaled; gb ens X_scaled] in
  final_prediction ← np_average predictions (weights ens);
  perf ← getitem performance_metrics "ensemble";
  Ok {| temp := round final_prediction 2; confidence := accuracy perf |}.

Definition predict_all
    (self : WeatherMLModels) (features : list Q) : result prediction :=
  X_scaled ← scale self features;
  t ← predict_temperature self features;
  hm ← getitem (models self) "humidity" ≫= as_estimator;
  rm ← getitem (models self) "rainfall" ≫= as_estimator;
  am ← getitem (models self) "aqi" ≫= as_estimator;
  Ok {| temperature := t;
        humidity := round (hm X_scaled) 2;
        rainfall := max0 (fin (round (rm X_scaled) 2));
        aqi := round (am X_scaled) 2 |}.

(** ** Risk assessment *)

Record risk : Type := {
  risk_type : string;
  severity : string;
  risk_message : string;
  risk_recommendation : string
}.

Definition heat_stress : risk :=
  {| risk_type := "heat_stress";
     severity := "high";
     risk_message := "Extreme heat predicted - crop stress likely";
     risk_recommendation :=
       "Increase irrigation, apply mulch, consider shade structures" |}.

Definition drought : risk :=
  {| risk_type := "drought";
     severity := "medium";
     risk_message := "Low rainfall predicted for coming week";
     risk_recommendation :=
       "Plan irrigation schedule and ensure water availability" |}.

Definition air_quality : risk :=
  {| risk_type := "air_quality";
     severity := "medium";
     risk_message := "Poor air quality detected";
     risk_recommendation :=
       "Monitor crop health for pollution stress symptoms" |}.

(** The forecast entries are the dicts built by [predict_all], which
    always carry the [rainfall] key, so [p.get('rainfall', 0)] reads it. *)
Definition assess_risks
    (temp_prediction : temperature_prediction)
    (current_features : list Q)
    (forecast_predictions : list prediction) : list risk :=
  let risks : list risk := [] in
  let risks :=
    if Qltb 35 (temp temp_prediction) then (risks ++ [heat_stress])%list else risks in
  let avg_rainfall := np_mean (map rainfall forecast_predictions) in
  let risks :=
    if np_lt avg_rainfall 2 then (risks ++ [drought])%list else risks in
  let current_aqi :=
    if (3 <? length current_features)%nat then nth 3 current_features 50 else 50 in
  let risks :=
    if Qltb 100 current_aqi then (risks ++ [air_quality])%list else risks in
  risks.

(** ** The prediction endpoint *)

(** One OpenWeatherMap record: [{'main': {...}, 'wind': {...}}]. *)
Abbreviation weather_item := (gmap string (gmap string Q)).

(** The request body of [/api/predict]: both keys are optional. *)
Record predict_request : Type := {
  current_weather : option weather_item;
  forecast : option (gmap string (list weather_item))
}.

Inductive predict_response : Type :=
  | PredictSuccess (temperature_prediction : temperature_prediction)
                   (forecast_predictions : list prediction)
                   (risks : list risk)
  | PredictFailure (error : exn).

(** The [features] list built from [current_weather]. *)
Definition extract_features (current_weather : weather_item) : list Q :=
  [ default 28 (default ∅ (current_weather !! "main") !! "temp");
    default 75 (default ∅ (current_weather !! "main") !! "humidity");
    default 1013 (default ∅ (current_weather !! "main") !! "pressure");
    default 3 (default ∅ (current_weather !! "wind") !! "speed") * 3.6 ].

(** The [forecast_features] list built from one forecast entry. *)
Definition forecast_features (item : weather_item) : result (list Q) :=
  t ← getitem item "main" ≫= λ main, getitem main "temp";
  h ← getitem item "main" ≫= λ main, getitem main "humidity";
  p ← getitem item "main" ≫= λ main, getitem main "pressure";
  w ← getitem item "wind" ≫= λ wind, getitem wind "speed";
  Ok [t; h; p; w * 3.6].

(** [range(start, stop, step)] for a positive step; [fuel] bounds the
    number of indices produced. *)
Fixpoint range_loop (fuel start stop step : nat) : list nat :=
  match fuel with
  | O => []
  | S fuel' =>
      if (start <? stop)%nat
      then start :: range_loop fuel' (start + step) stop step
      else []
  end.

Definition range (start stop step : nat) : list nat :=
  range_loop stop start stop step.

(** The indices visited by the forecast loop. *)
Definition sampled_indices (series : list weather_item) : list nat :=
  range 0 (Nat.min 56 (length series)) 8.

Definition forecast_loop
    (self : WeatherMLModels) (series : list weather_item) : result (list prediction) :=
  mapM (λ i, item ← index series i;
             forecast_features item ≫= predict_all self)
       (sampled_indices series).

Definition predict_weather
    (self : WeatherMLModels) (data : predict_request) : predict_response :=
  let current := default ∅ (current_weather data) in
  let fc := default ∅ (forecast data) in
  let features := extract_features current in
  let body :=
    temperature_prediction ← predict_temperature self features;
    forecast_predictions ←
      match fc !! "list" with
      | Some series => forecast_loop self series
      | None => Ok []
      end;
    Ok (temperature_prediction, forecast_predictions,
        assess_risks temperature_prediction features forecast_predictions) in
  match body with
  | Ok (t, f, r) => PredictSuccess t f r
  | Raise e => PredictFailure e
  end.

(** ** Training and the retrain endpoint *)

(** What the calls that [train_models] makes outside this file do in one
    run: each either returns its value or raises. *)
Record training_run : Type := {
  create_training_data : result unit;
  scaler_fit_transform : result (list Q -> list Q);
  temp_lr_fit : result regressor;
  temp_rf_fit : result regressor;
  temp_gb_fit : result regressor;
  humidity_model_fit : result regressor;
  rainfall_model_fit : result regressor;
  aqi_model_fit : result regressor;
  save_models : result unit
}.

(** Statements that update the container in place: the state reached so
    far is kept when an exception is raised. *)
Definition stmt (A : Type) : Type := WeatherMLModels -> WeatherMLModels * result A.

#[global] Instance stmt_ret : MRet stmt := fun A a self => (self, Ok a).
#[global] Instance stmt_bind : MBind stmt := fun A B k m self =>
  match m self with
  | (self', Ok a) => k a self'
  | (self', Raise e) => (self', Raise e)
  end.

Definition call {A : Type} (r : result A) : stmt A := fun self => (self, r).

(** The container after [self.scalers[key] = sc], after
    [self.models[key] = m]. *)
Definition with_scaler (key : string) (sc : scaler)
    (self : WeatherMLModels) : WeatherMLModels :=
  {| models := models self; scalers := <[key := sc]> (scalers self) |}.

Definition with_model (key : string) (m : model)
    (self : WeatherMLModels) : WeatherMLModels :=
  {| models := <[key := m]> (models self); scalers := scalers self |}.

Definition set_scaler (key : string) (sc : scaler) : stmt unit :=
  fun self => (with_scaler key sc self, Ok tt).

Definition set_model (key : string) (m : model) : stmt unit :=
  fun self => (with_model key m self, Ok tt).

Definition train_models (run : training_run) : stmt unit :=
  call (create_training_data run);;
  set_scaler "features" Unfitted;;
  transform ← call (scaler_fit_transform run);
  set_scaler "features" (Fitted transform);;
  temp_lr ← call (temp_lr_fit run);
  temp_rf ← call (temp_rf_fit run);
  temp_gb ← call (temp_gb_fit run);
  set_model "temp_ensemble"
    (EnsembleDict {| lr := temp_lr; rf := temp_rf; gb := temp_gb;
                     weights := [0.2; 0.4; 0.4] |});;
  humidity_model ← call (humidity_model_fit run);
  set_model "humidity" (Estimator humidity_model);;
  rainfall_model ← call (rainfall_model_fit run);
  set_model "rainfall" (Estimator rainfall_model);;
  aqi_model ← call (aqi_model_fit run);
  set_model "aqi" (Estimator aqi_model);;
  call (save_models run).

Inductive retrain_response : Type :=
  | RetrainSuccess (message : string)
  | RetrainFailure (error : exn).

(** [/api/retrain] acts on the module-level [ml_models]. *)
Definition retrain_models (run : training_run)
    (ml_models : WeatherMLModels) : WeatherMLModels * retrain_response :=
  match train_models run ml_models with
  | (ml_models', Ok _) => (ml_models', RetrainSuccess "Models retrained successfully")
  | (ml_models', Raise e) => (ml_models', RetrainFailure e)
  end.

(** ** Ready containers and sample data *)

(** A container on which prediction can run: the scaler is fitted, the
    four model entries have their shape, and the three ensemble weights
    do not cancel out.  [train_models] and [load_models] aim at this. *)
Record ready (self : WeatherMLModels) : Prop := {
  ready_scaler : exists transform,
    scalers self !! "features" = Some (Fitted transform);
  ready_ensemble : exists e,
    models self !! "temp_ensemble" = Some (EnsembleDict e) /\
    length (weights e) = 3%nat /\ ~ Qsum (weights e) == 0;
  ready_humidity : exists r, models self !! "humidity" = Some (Estimator r);
  ready_rainfall : exists r, models self !! "rainfall" = Some (Estimator r);
  ready_aqi : exists r, models self !! "aqi" = Some (Estimator r)
}.

(** A container whose estimators answer with constants: [a], [b], [c]
    for the three temperature roles, [h], [r], [q] for humidity,
    rainfall and air quality; the scaler passes rows through. *)
Definition constant_store (a b c h r q : Q) : WeatherMLModels :=
  {| models :=
       <["temp_ensemble" :=
           EnsembleDict {| lr := λ _, a; rf := λ _, b; gb := λ _, c;
                           weights := [0.2; 0.4; 0.4] |}]>
       (<["humidity" := Estimator (λ _, h)]>
       (<["rainfall" := Estimator (λ _, r)]>
       (<["aqi" := Estimator (λ _, q)]> ∅)));
     scalers := <["features" := Fitted (λ row, row)]> ∅ |}.

(** A forecast entry with every field present. *)
Definition full_item (t h p w : Q) : weather_item :=
  <["main" := <["temp" := t]> (<["humidity" := h]> (<["pressure" := p]> ∅))]>
  (<["wind" := <["speed" := w]> ∅]> ∅).

(** A run of [train_models] in which every call returns, and one in
    which only the final [save_models] raises. *)
Definition good_run (a b c h r q : Q) : training_run :=
  {| create_training_data := Ok tt;
     scaler_fit_transform := Ok (λ row, row);
     temp_lr_fit := Ok (λ _, a);
     temp_rf_fit := Ok (λ _, b);
     temp_gb_fit := Ok (λ _, c);
     humidity_model_fit := Ok (λ _, h);
     rainfall_model_fit := Ok (λ _, r);
     aqi_model_fit := Ok (λ _, q);
     save_models := Ok tt |}.

Definition save_fails (a b c h r q : Q) : training_run :=
  {| create_training_data := Ok tt;
     scaler_fit_transform := Ok (λ row, row);
     temp_lr_fit := Ok (λ _, a);
     temp_rf_fit := Ok (λ _, b);
     temp_gb_fit := Ok (λ _, c);
     humidity_model_fit := Ok (λ _, h);
     rainfall_model_fit := Ok (λ _, r);
     aqi_model_fit := Ok (λ _, q);
     save_models := Raise OSError |}.

Definition sample_series : list weather_item :=
  replicate 20 (full_item 30 60 1010 2).

(** The container after all the assignments of [train_models]. *)
Definition fully_trained (transform : list Q -> list Q)
    (temp_lr temp_rf temp_gb humidity_model rainfall_model aqi_model : regressor)
    (self : WeatherMLModels) : WeatherMLModels :=
  with_model "aqi" (Estimator aqi_model)
    (with_model "rainfall" (Estimator rainfall_model)
       (with_model "humidity" (Estimator humidity_model)
          (with_model "temp_ensemble"
             (EnsembleDict {| lr := temp_lr; rf := temp_rf; gb := temp_gb;
                              weights := [0.2; 0.4; 0.4] |})
             (with_scaler "features" (Fitted transform)
                (with_scaler "features" Unfitted self))))).

(** A run in which only the scaler's fit raises. *)
Definition scaler_fit_fails (a b c h r q : Q) : training_run :=
  {| create_training_data := Ok tt;
     scaler_fit_transform := Raise TypeError;
     temp_lr_fit := Ok (λ _, a);
     temp_rf_fit := Ok (λ _, b);
     temp_gb_fit := Ok (λ _, c);
     humidity_model_fit := Ok (λ _, h);
     rainfall_model_fit := Ok (λ _, r);
     aqi_model_fit := Ok (λ _, q);
     save_models := Ok tt |}.


(** The container a failed [train_models] leaves behind once the
    temperature ensemble is in place, by the later call that raised. *)
Inductive left_after_single_models (run : training_run) (self1 : WeatherMLModels)
    (e : exn) : WeatherMLModels -> Prop :=
  | failed_humidity :
      humidity_model_fit run = Raise e ->
      left_after_single_models run self1 e self1
  | failed_rainfall hm :
      humidity_model_fit run = Ok hm ->
      rainfall_model_fit run = Raise e ->
      left_after_single_models run self1 e
        (with_model "humidity" (Estimator hm) self1)
  | failed_aqi hm rm :
      humidity_model_fit run = Ok hm ->
      rainfall_model_fit run = Ok rm ->
      aqi_model_fit run = Raise e ->
      left_after_single_models run self1 e
        (with_model "rainfall" (Estimator rm)
           (with_model "humidity" (Estimator hm) self1))
  | failed_save hm rm am :
      humidity_model_fit run = Ok hm ->
      rainfall_model_fit run = Ok rm ->
      aqi_model_fit run = Ok am ->
      save_models run = Raise e ->
      left_after_single_models run self1 e
        (with_model "aqi" (Estimator am)
           (with_model "rainfall" (Estimator rm)
              (with_model "humidity" (Estimator hm) self1))).

(** The container a failed [train_models] leaves behind, by the call
    that raised: every assignment made before it stays. *)
Inductive left_after_failure (run : training_run) (self : WeatherMLModels)
    (e : exn) : WeatherMLModels -> Prop :=
  | failed_data :
      create_training_data run = Raise e ->
      left_after_failure run self e self
  | failed_scaler u :
      create_training_data run = Ok u ->
      scaler_fit_transform run = Raise e ->
      left_after_failure run self e (with_scaler "features" Unfitted self)
  | failed_temperature u transform :
      create_training_data run = Ok u ->
      scaler_fit_transform run = Ok transform ->
      temp_lr_fit run = Raise e \/
      (exists temp_lr, temp_lr_fit run = Ok temp_lr /\
         (temp_rf_fit run = Raise e \/
          (exists temp_rf, temp_rf_fit run = Ok temp_rf /\
             temp_gb_fit run = Raise e))) ->
      left_after_failure run self e
        (with_scaler "features" (Fitted transform)
           (with_scaler "features" Unfitted self))
  | failed_later u transform temp_lr temp_rf temp_gb self1 :
      create_training_data run = Ok u ->
      scaler_fit_transform run = Ok transform ->
      temp_lr_fit run = Ok temp_lr ->
      temp_rf_fit run = Ok temp_rf ->
      temp_gb_fit run = Ok temp_gb ->
      self1 = with_model "temp_ensemble"
                (EnsembleDict {| lr := temp_lr; rf := temp_rf; gb := temp_gb;
                                 weights := [0.2; 0.4; 0.4] |})
                (with_scaler "features" (Fitted transform)
                   (with_scaler "features" Unfitted self)) ->
      forall self',
      left_after_single_models run self1 e self' ->
      left_after_failure run self e self'.



(** Whether a field of a weather record is supplied or missing. *)
Definition supplied (w : weather_item) (group key : string) (v : Q) : Prop :=
  exists d, w !! group = Some d /\ d !! key = Some v.

Definition missing (w : weather_item) (group key : string) : Prop :=
  w !! group = None \/ exists d, w !! group = Some d /\ d !! key = None.

(** ** Health check *)

Record health : Type := {
  status : string;
  models_loaded : bool
}.

(** [/api/health], without its timestamp. *)
Definition health_check (ml_models : WeatherMLModels) : health :=
  {| status := "healthy";
     models_loaded := bool_decide (0 < size (models ml_models))%nat |}.

(** ** Model files and startup *)

(** What a file under [models/] holds after [joblib.dump]. *)
Inductive pickle : Type :=
  | PickledModel (m : model)
  | PickledScaler (sc : scaler).

Definition model_path (model_name : string) : string :=
  "models/" +:+ model_name +:+ ".pkl".

Definition scaler_path (scaler_name : string) : string :=
  "models/scaler_" +:+ scaler_name +:+ ".pkl".

(** The files after a [save_models] in which no call raises: one dump per
    entry of [self.models], then one per entry of [self.scalers]. *)
Definition saved_files (self : WeatherMLModels)
    (files : gmap string pickle) : gmap string pickle :=
  let files :=
    map_fold (λ model_name m fs, <[model_path model_name := PickledModel m]> fs)
             files (models self) in
  map_fold (λ scaler_name sc fs, <[scaler_path scaler_name := PickledScaler sc]> fs)
           files (scalers self).

(** [joblib.load(path)] where a model, or a scaler, is expected.  A
    missing file raises [FileNotFoundError], an [OSError].  The container
    type cannot hold an object of the other kind, so such a file is
    reported here as [TypeError]; Python would store the object and fail
    at its first use. *)
Definition load_model (files : gmap string pickle) (path : string) : result model :=
  match files !! path with
  | None => Raise OSError
  | Some (PickledModel m) => Ok m
  | Some (PickledScaler _) => Raise TypeError
  end.

Definition load_scaler (files : gmap string pickle) (path : string) : result scaler :=
  match files !! path with
  | None => Raise OSError
  | Some (PickledScaler sc) => Ok sc
  | Some (PickledModel _) => Raise TypeError
  end.

(** The loop of [load_models] over [model_files]. *)
Fixpoint load_each (files : gmap string pickle) (model_files : list string)
    : stmt unit :=
  match model_files with
  | [] => mret tt
  | model_name :: rest =>
      m ← call (load_model files (model_path model_name));
      set_model model_name m;;
      load_each files rest
  end.

Definition load_models (files : gmap string pickle) : stmt unit :=
  load_each files ["temp_ensemble"; "humidity"; "rainfall"; "aqi"];;
  sc ← call (load_scaler files "models/scaler_features.pkl");
  set_scaler "features" sc.

(** [initialize_models]: load when the probed file exists, otherwise
    train.  On success the files are returned as they then are; what a
    failed save leaves on disk is not described. *)
Definition initialize_models (run : training_run) (files : gmap string pickle)
    (self : WeatherMLModels) : WeatherMLModels * result (gmap string pickle) :=
  if bool_decide (is_Some (files !! "models/ensemble_temp.pkl")) then
    match load_models files self with
    | (self', Ok _) => (self', Ok files)
    | (self', Raise e) => (self', Raise e)
    end
  else
    match train_models run self with
    | (self', Ok _) => (self', Ok (saved_files self' files))
    | (self', Raise e) => (self', Raise e)
    end.

(** [WeatherMLModels()]: empty dicts, then [initialize_models]. *)
Definition new_container : WeatherMLModels := {| models := ∅; scalers := ∅ |}.

Definition startup (run : training_run) (files : gmap string pickle)
    : WeatherMLModels * result (gmap string pickle) :=
  initialize_models run files new_container.

(** Only the keys that [train_models] and [load_models] assign. *)
Definition standard_keys (self : WeatherMLModels) : Prop :=
  (forall key, is_Some (models self !! key) ->
     key ∈ ["temp_ensemble"; "humidity"; "rainfall"; "aqi"]) /\
  (forall key, is_Some (scalers self !! key) -> key = "features").

(** * Properties *)

(** ** Sequencing *)

Lemma bind_Ok {A B : Type} (a : A) (k : A -> result B) : (Ok a ≫= k) = k a.
Proof. reflexivity. Qed.

Lemma bind_Raise {A B : Type} (e : exn) (k : A -> result B) :
  (Raise e ≫= k) = Raise e.
Proof. reflexivity. Qed.

Lemma bind_Ok_inv {A B : Type} (m : result A) (k : A -> result B) (b : B) :
  (m ≫= k) = Ok b -> exists a, m = Ok a /\ k a = Ok b.
Proof. destruct m as [a | e]; [eauto | discriminate]. Qed.

Lemma Ok_inj {A : Type} (a b : A) : Ok a = Ok b -> a = b.
Proof. intros H. congruence. Qed.

(** ** Comparisons and rounding *)

Lemma np_map_fin (f : Q -> Q) (q : Q) : np_map f (fin q) = fin (f q).
Proof. reflexivity. Qed.

Lemma Qltb_lt (x y : Q) : Qltb x y = true <-> x < y.
Proof.
  unfold Qltb. rewrite negb_true_iff, <- not_true_iff_false, Qle_bool_iff.
  split; [apply Qnot_le_lt | apply Qlt_not_le].
Qed.

Lemma Qltb_ge (x y : Q) : Qltb x y = false <-> y <= x.
Proof.
  unfold Qltb. rewrite negb_false_iff. apply Qle_bool_iff.
Qed.

Lemma rint_between (a b : Z) (y : Q) :
  inject_Z a <= y -> y <= inject_Z b -> (a <= rint y <= b)%Z.
Proof.
  intros Ha Hb.
  assert (Hfa : (a <= Qfloor y)%Z).
  { rewrite <- (Qfloor_Z a). now apply Qfloor_resp_le. }
  assert (Hfb : (Qfloor y <= b)%Z).
  { rewrite <- (Qfloor_Z b). now apply Qfloor_resp_le. }
  assert (Hup : 1 # 2 <= y - inject_Z (Qfloor y) -> (Qfloor y + 1 <= b)%Z).
  { intros Hhalf.
    destruct (Z.eq_dec (Qfloor y) b) as [Heq | Hne]; [| lia].
    rewrite Heq in Hhalf. lra. }
  unfold rint.
  destruct (Qcompare (y - inject_Z (Qfloor y)) (1 # 2)) eqn:Hc.
  - apply Qeq_alt in Hc.
    assert (Hh : 1 # 2 <= y - inject_Z (Qfloor y)) by (rewrite Hc; apply Qle_refl).
    specialize (Hup Hh). destruct (Z.even (Qfloor y)); lia.
  - lia.
  - apply Qgt_alt in Hc.
    assert (Hh : 1 # 2 <= y - inject_Z (Qfloor y)) by now apply Qlt_le_weak.
    specialize (Hup Hh). lia.
Qed.

Lemma round_eq (x : Q) (ndigits : nat) :
  round x ndigits ==
  inject_Z (rint (x * inject_Z (10 ^ Z.of_nat ndigits)))
    / inject_Z (10 ^ Z.of_nat ndigits).
Proof. unfold round. apply Qred_correct. Qed.

Lemma round1_between_0_100 (x : Q) :
  0 <= x -> x <= 100 -> 0 <= round x 1 /\ round x 1 <= 100.
Proof.
  intros H0 H100.
  rewrite round_eq. change (inject_Z (10 ^ Z.of_nat 1)) with 10.
  destruct (rint_between 0 1000 (x * 10)) as [Hlo Hhi].
  - change (inject_Z 0) with 0. lra.
  - change (inject_Z 1000) with 1000. lra.
  - set (n := rint (x * 10)) in *.
    assert (Hlo' : inject_Z 0 <= inject_Z n) by now rewrite <- Zle_Qle.
    assert (Hhi' : inject_Z n <= inject_Z 1000) by now rewrite <- Zle_Qle.
    change (inject_Z 0) with 0 in Hlo'. change (inject_Z 1000) with 1000 in Hhi'.
    split.
    + apply Qle_shift_div_l; lra.
    + apply Qle_shift_div_r; lra.
Qed.

(** ** The compatibility score *)

Lemma index_ge2 {A : Type} (l : list A) :
  (2 <= length l)%nat -> exists a b l', l = a :: b :: l'.
Proof.
  destruct l as [| a [| b l']]; simpl; intros H; try lia. eauto.
Qed.

Lemma max0_between (q : Q) : q <= 100 -> 0 <= max0 (fin q) /\ max0 (fin q) <= 100.
Proof.
  intros H. cbn [max0]. destruct (Qltb 0 q) eqn:E.
  - apply Qltb_lt in E. split; lra.
  - split; lra.
Qed.

(** A component score that is returned lies in [0, 100], whatever the
    range list holds, as long as the penalty factor is not negative. *)
Lemma range_score_between (r : list Q) (v k s : Q) :
  0 <= k -> range_score r v k = Ok s -> 0 <= s /\ s <= 100.
Proof.
  intros Hk. unfold range_score.
  destruct (in_range r v) as [[|] | e]; rewrite ?bind_Ok, ?bind_Raise;
    intros H; try discriminate H; apply Ok_inj in H; subst s.
  - split; lra.
  - destruct (np_mean r) as [| m].
    + change (0 <= 0 /\ 0 <= 100). split; lra.
    + rewrite np_map_fin. apply max0_between.
      assert (Hp : 0 <= Qabs (v - m) * k)
        by (apply Qmult_le_0_compat; [apply Qabs_nonneg | exact Hk]).
      set (p := Qabs (v - m) * k) in *. lra.
Qed.

Lemma in_range_pair (lo hi v : Q) (rest : list Q) :
  in_range (lo :: hi :: rest) v = Ok (Qle_bool lo v && Qle_bool v hi).
Proof.
  unfold in_range. change (index (lo :: hi :: rest) 0) with (Ok lo).
  change (index (lo :: hi :: rest) 1) with (Ok hi). rewrite bind_Ok.
  destruct (Qle_bool lo v); reflexivity.
Qed.

Lemma range_score_returns (r : list Q) (v k : Q) :
  (2 <= length r)%nat -> exists s, range_score r v k = Ok s.
Proof.
  intros H. destruct (index_ge2 r H) as (a & b & l' & ->).
  unfold range_score. rewrite in_range_pair, bind_Ok.
  destruct (Qle_bool a v && Qle_bool v b); eauto.
Qed.

Lemma max0_Qmax (q : Q) : max0 (fin q) == Qmax 0 q.
Proof.
  cbn [max0]. destruct (Qltb 0 q) eqn:E.
  - apply Qltb_lt in E. symmetry. apply Q.max_r. lra.
  - apply Qltb_ge in E. symmetry. apply Q.max_l. lra.
Qed.

(** Outside a two-point range the component is the penalised distance to
    the midpoint, cut off at 0. *)
Lemma range_score_outside (lo hi v k : Q) :
  v < lo \/ hi < v ->
  exists s, range_score [lo; hi] v k = Ok s /\
            s == Qmax 0 (100 - Qabs (v - (lo + hi) / 2) * k).
Proof.
  intros Hout. unfold range_score. rewrite in_range_pair.
  assert (Hin : Qle_bool lo v && Qle_bool v hi = false).
  { apply andb_false_iff.
    destruct Hout as [H | H]; [left | right];
      apply not_true_iff_false; rewrite Qle_bool_iff; lra. }
  rewrite Hin, bind_Ok.
  change (np_mean [lo; hi]) with (fin ((lo + (hi + 0)) / 2)).
  rewrite np_map_fin. eexists; split; [reflexivity |].
  rewrite max0_Qmax.
  assert (Hm : (lo + (hi + 0)) / 2 == (lo + hi) / 2) by field.
  now rewrite Hm.
Qed.

(** Any score that is returned lies in [0, 100]. *)
Lemma calculate_compatibility_score_between
    (temp humidity s : Q) (requirements : requirement) :
  calculate_compatibility_score temp humidity requirements = Ok s ->
  0 <= s /\ s <= 100.
Proof.
  unfold calculate_compatibility_score.
  destruct (range_score (temp_range requirements) temp 10) as [ts | e] eqn:Et;
    simpl; [| discriminate].
  destruct (range_score (humidity_range requirements) humidity 5) as [hs | e] eqn:Eh;
    simpl; [| discriminate].
  intros H. inversion H; subst. clear H.
  apply range_score_between in Et; [| lra].
  apply range_score_between in Eh; [| lra].
  apply round1_between_0_100.
  - apply Qle_shift_div_l; lra.
  - apply Qle_shift_div_r; lra.
Qed.

Lemma calculate_compatibility_score_returns
    (temp humidity : Q) (requirements : requirement) :
  (2 <= length (temp_range requirements))%nat ->
  (2 <= length (humidity_range requirements))%nat ->
  exists s, calculate_compatibility_score temp humidity requirements = Ok s.
Proof.
  intros Ht Hh.
  destruct (range_score_returns (temp_range requirements) temp 10 Ht) as [ts Ets].
  destruct (range_score_returns (humidity_range requirements) humidity 5 Hh) as [hs Ehs].
  unfold calculate_compatibility_score. rewrite Ets, bind_Ok, Ehs, bind_Ok. eauto.
Qed.

(** C10. For every temperature, humidity and requirements entry whose two
    ranges hold their [min, max] pair, [calculate_compatibility_score]
    returns a score, and the score lies between 0 and 100 inclusive. *)
Theorem compatibility_score_in_0_100
    (temp humidity : Q) (requirements : requirement) :
  (2 <= length (temp_range requirements))%nat ->
  (2 <= length (humidity_range requirements))%nat ->
  exists s, calculate_compatibility_score temp humidity requirements = Ok s /\
            0 <= s /\ s <= 100.
Proof.
  intros Ht Hh.
  destruct (calculate_compatibility_score_returns temp humidity requirements Ht Hh)
    as [s Es].
  exists s. split; [exact Es |].
  exact (calculate_compatibility_score_between temp humidity s requirements Es).
Qed.

Lemma compatibility_score_in_0_100_witness :
  exists s,
    calculate_compatibility_score 40 (-5)
      {| temp_range := [12; 25]; humidity_range := [50; 70];
         optimal_rainfall := [500; 750] |} = Ok s /\
    0 <= s /\ s <= 100.
Proof.
  apply compatibility_score_in_0_100; simpl; lia.
Defined.

(** ** Crop recommendations *)

Lemma crop_requirements_ranges (crop : string) (req : requirement) :
  crop_requirements !! crop = Some req ->
  (2 <= length (temp_range req))%nat /\ (2 <= length (humidity_range req))%nat.
Proof.
  unfold crop_requirements. intros H.
  repeat (apply lookup_insert_Some in H as [[_ <-] | [_ H]];
          [cbn [temp_range humidity_range length]; lia |]).
  rewrite lookup_empty in H. discriminate H.
Qed.

Lemma temperature_analysis_returns
    (format_num : Q -> string) (t : Q) (req : requirement) :
  (2 <= length (temp_range req))%nat ->
  exists r, temperature_analysis format_num t req = Ok r /\
            parameter r = "temperature".
Proof.
  intros H. destruct (index_ge2 _ H) as (lo & hi & rest & E).
  unfold temperature_analysis. rewrite E.
  change (index (lo :: hi :: rest) 0) with (Ok lo).
  change (index (lo :: hi :: rest) 1) with (Ok hi). rewrite bind_Ok.
  destruct (Qltb t lo); [eauto |]. rewrite bind_Ok.
  destruct (Qltb hi t); eauto.
Qed.

Lemma humidity_analysis_returns
    (format_num : Q -> string) (h : Q) (req : requirement) :
  (2 <= length (humidity_range req))%nat ->
  exists r, humidity_analysis format_num h req = Ok r /\
            parameter r = "humidity".
Proof.
  intros H. destruct (index_ge2 _ H) as (lo & hi & rest & E).
  unfold humidity_analysis. rewrite E.
  change (index (lo :: hi :: rest) 0) with (Ok lo).
  change (index (lo :: hi :: rest) 1) with (Ok hi). rewrite bind_Ok.
  destruct (Qltb h lo); [eauto |]. rewrite bind_Ok.
  destruct (Qltb hi h); eauto.
Qed.

Lemma rice_entry :
  getitem crop_requirements "rice" =
  Ok {| temp_range := [20; 35]; humidity_range := [70; 90];
        optimal_rainfall := [1500; 2000] |}.
Proof. reflexivity. Qed.

(** Whatever the crop key, the static table makes [recommend] return two
    recommendations, temperature first, and a score. *)
Lemma recommend_returns (format_num : Q -> string) (crop : string) (t h : Q) :
  exists rt rh score,
    recommend format_num crop t h = Ok ([rt; rh], score) /\
    parameter rt = "temperature" /\ parameter rh = "humidity" /\
    0 <= score /\ score <= 100.
Proof.
  unfold recommend. rewrite rice_entry, bind_Ok.
  set (rice := {| temp_range := [20; 35]; humidity_range := [70; 90];
                  optimal_rainfall := [1500; 2000] |}).
  set (req := default rice (crop_requirements !! crop)).
  assert (Hreq : (2 <= length (temp_range req))%nat /\
                 (2 <= length (humidity_range req))%nat).
  { unfold req. destruct (crop_requirements !! crop) as [r |] eqn:E.
    - exact (crop_requirements_ranges crop r E).
    - cbn [default rice temp_range humidity_range length]. lia. }
  destruct Hreq as [Ht Hh].
  destruct (temperature_analysis_returns format_num t req Ht) as (rt & Ert & Hpt).
  destruct (humidity_analysis_returns format_num h req Hh) as (rh & Erh & Hph).
  destruct (calculate_compatibility_score_returns t h req Ht Hh) as [s Es].
  pose proof (calculate_compatibility_score_between t h s req Es) as Hs.
  exists rt, rh, s. rewrite Ert, bind_Ok, Erh, bind_Ok, Es, bind_Ok.
  repeat split; tauto.
Qed.

(** The handler never answers with the failure payload. *)
Lemma get_crop_recommendations_succeeds
    (format_num : Q -> string) (data : crop_request) :
  exists recs score,
    get_crop_recommendations format_num data =
    CropSuccess (default "rice" (crop_type data)) recs score.
Proof.
  unfold get_crop_recommendations.
  destruct (recommend_returns format_num (default "rice" (crop_type data))
              (default 28 (default ∅ (weather_data data) !! "temp"))
              (default 75 (default ∅ (weather_data data) !! "humidity")))
    as (rt & rh & s & E & _).
  rewrite E. eauto.
Qed.

(** C5. [recommend('rice', 28, 75)] classifies temperature and humidity
    as success and returns the compatibility score 100.0. *)
Theorem recommend_rice_28_75 (format_num : Q -> string) :
  exists rt rh,
    recommend format_num "rice" 28 75 = Ok ([rt; rh], 100) /\
    parameter rt = "temperature" /\ rec_type rt = "success" /\
    parameter rh = "humidity" /\ rec_type rh = "success".
Proof.
  do 2 eexists. split; [vm_compute; reflexivity |].
  repeat split.
Qed.

(** C6. [recommend('wheat', 28, 75)] classifies temperature as critical
    and humidity as warning; the score is the mean, rounded to one
    decimal, of the two penalised components
    [max(0, 100 - |value - midpoint| * factor)] with factor 10 for
    temperature and 5 for humidity, which is 15.0. *)
Theorem recommend_wheat_28_75 (format_num : Q -> string) :
  exists rt rh score,
    recommend format_num "wheat" 28 75 = Ok ([rt; rh], score) /\
    parameter rt = "temperature" /\ rec_type rt = "critical" /\
    parameter rh = "humidity" /\ rec_type rh = "warning" /\
    score = round ((Qmax 0 (100 - Qabs (28 - (12 + 25) / 2) * 10)
                    + Qmax 0 (100 - Qabs (75 - (50 + 70) / 2) * 5)) / 2) 1 /\
    score = 15.
Proof.
  do 3 eexists. split; [vm_compute; reflexivity |].
  repeat split.
Qed.

(** C7. For a crop key that is not in the requirements table,
    [recommend] raises nothing and returns the recommendations and the
    score it returns for ['rice'] on the same temperature and humidity. *)
Theorem unknown_crop_falls_back_to_rice
    (format_num : Q -> string) (crop : string) (t h : Q) :
  crop_requirements !! crop = None ->
  recommend format_num crop t h = recommend format_num "rice" t h /\
  exists recs score, recommend format_num crop t h = Ok (recs, score).
Proof.
  intros Hnone. split.
  - unfold recommend. rewrite Hnone. reflexivity.
  - destruct (recommend_returns format_num crop t h) as (rt & rh & s & E & _).
    eauto.
Qed.

Lemma unknown_crop_falls_back_to_rice_witness :
  recommend (fun _ => "28") "maize" 28 75 = recommend (fun _ => "28") "rice" 28 75 /\
  exists recs score, recommend (fun _ => "28") "maize" 28 75 = Ok (recs, score).
Proof.
  apply (unknown_crop_falls_back_to_rice (fun _ => "28") "maize" 28 75).
  reflexivity.
Defined.

(** ** Temperature ensemble *)

Lemma rint_wd (x y : Q) : x == y -> rint x = rint y.
Proof.
  intros H. unfold rint. rewrite <- (Qfloor_comp x y H).
  assert (Hc : Qcompare (x - inject_Z (Qfloor x)) (1 # 2)
               = Qcompare (y - inject_Z (Qfloor x)) (1 # 2)).
  { apply Qcompare_comp; [lra | reflexivity]. }
  now rewrite Hc.
Qed.

Lemma round_wd (x y : Q) (n : nat) : x == y -> round x n = round y n.
Proof.
  intros H. unfold round.
  rewrite (rint_wd (x * inject_Z (10 ^ Z.of_nat n)) (y * inject_Z (10 ^ Z.of_nat n)));
    [reflexivity | apply Qmult_comp; [exact H | reflexivity]].
Qed.

Lemma ensemble_accuracy :
  getitem performance_metrics "ensemble" =
  Ok {| mae := 1.8; rmse := 2.4; accuracy := 95.8 |}.
Proof. reflexivity. Qed.

Lemma getitem_Some {V : Type} (d : gmap string V) (key : string) (v : V) :
  d !! key = Some v -> getitem d key = Ok v.
Proof. intros H. unfold getitem. now rewrite H. Qed.

Lemma scale_fitted (self : WeatherMLModels) (transform : list Q -> list Q)
    (features : list Q) :
  scalers self !! "features" = Some (Fitted transform) ->
  scale self features = Ok (transform features).
Proof. intros H. unfold scale. now rewrite (getitem_Some _ _ _ H). Qed.

Lemma average_reference_weights (a b c : Q) :
  exists avg, np_average [a; b; c] [0.2; 0.4; 0.4] = Ok avg /\
              avg == 0.2 * a + 0.4 * b + 0.4 * c.
Proof.
  eexists. split; [reflexivity |].
  cbn [zip_with Qsum fold_right]. field.
Qed.

(** C1, as the spec words it, fails: the value handed back is the
    weighted average rounded to two decimals, not the average itself.
    With role outputs 10.004, 20 and 30 the average is 22.0008 and the
    returned temperature is 22.0. *)
Lemma predict_temperature_not_the_exact_average :
  exists p,
    predict_temperature (constant_store 10.004 20 30 70 1 40)
      [28; 75; 1013; 10.8] = Ok p /\
    ~ temp p == 0.2 * 10.004 + 0.4 * 20 + 0.4 * 30.
Proof.
  eexists. split; [vm_compute; reflexivity |].
  cbn [temp]. intros H. vm_compute in H. discriminate H.
Qed.

(** C1 (amended). With the reference weights [0.2, 0.4, 0.4],
    [predict_temperature] returns the weighted average of the linear,
    forest and boosted outputs rounded to two decimals; for outputs
    [10, 20, 30] that is 22.0; and the confidence is the constant
    ensemble accuracy 95.8, whatever the outputs are. *)
Theorem predict_temperature_rounded_weighted_average
    (self : WeatherMLModels) (features : list Q)
    (transform : list Q -> list Q) (e : ensemble) :
  scalers self !! "features" = Some (Fitted transform) ->
  models self !! "temp_ensemble" = Some (EnsembleDict e) ->
  weights e = [0.2; 0.4; 0.4] ->
  let X_scaled := transform features in
  exists p,
    predict_temperature self features = Ok p /\
    temp p = round (0.2 * lr e X_scaled + 0.4 * rf e X_scaled
                    + 0.4 * gb e X_scaled) 2 /\
    (lr e X_scaled == 10 -> rf e X_scaled == 20 -> gb e X_scaled == 30 ->
     temp p = 22) /\
    confidence p = accuracy {| mae := 1.8; rmse := 2.4; accuracy := 95.8 |} /\
    confidence p = 95.8.
Proof.
  intros Hsc Hm Hw X_scaled.
  destruct (average_reference_weights (lr e X_scaled) (rf e X_scaled) (gb e X_scaled))
    as (avg & Eavg & Havg).
  assert (E : predict_temperature self features
              = Ok {| temp := round avg 2; confidence := 95.8 |}).
  { unfold predict_temperature.
    rewrite (scale_fitted self transform features Hsc), bind_Ok.
    rewrite (getitem_Some _ _ _ Hm), bind_Ok.
    cbn [as_ensemble]. rewrite bind_Ok, Hw.
    fold X_scaled. rewrite Eavg, bind_Ok, ensemble_accuracy, bind_Ok.
    reflexivity. }
  eexists. split; [exact E |]. cbn [temp confidence accuracy].
  split; [now apply round_wd |].
  split; [| split; reflexivity].
  intros H1 H2 H3.
  rewrite (round_wd avg 22 2); [reflexivity |].
  rewrite Havg, H1, H2, H3. reflexivity.
Qed.

Lemma predict_temperature_rounded_weighted_average_witness :
  exists p,
    predict_temperature (constant_store 10 20 30 70 1 40) [28; 75; 1013; 10.8]
      = Ok p /\
    temp p = round (0.2 * 10 + 0.4 * 20 + 0.4 * 30) 2 /\
    (10 == 10 -> 20 == 20 -> 30 == 30 -> temp p = 22) /\
    confidence p = accuracy {| mae := 1.8; rmse := 2.4; accuracy := 95.8 |} /\
    confidence p = 95.8.
Proof.
  apply (predict_temperature_rounded_weighted_average
           (constant_store 10 20 30 70 1 40) [28; 75; 1013; 10.8]
           (λ row, row)
           {| lr := λ _, 10; rf := λ _, 20; gb := λ _, 30;
              weights := [0.2; 0.4; 0.4] |});
    reflexivity.
Defined.

(** ** Rainfall floor *)

(** Whatever [predict_all] returns carries a non-negative rainfall. *)
Lemma predict_all_rainfall_nonneg
    (self : WeatherMLModels) (features : list Q) (p : prediction) :
  predict_all self features = Ok p -> 0 <= rainfall p.
Proof.
  unfold predict_all. intros H.
  apply bind_Ok_inv in H as (X & _ & H).
  apply bind_Ok_inv in H as (t & _ & H).
  apply bind_Ok_inv in H as (hm & _ & H).
  apply bind_Ok_inv in H as (rm & _ & H).
  apply bind_Ok_inv in H as (am & _ & H).
  apply Ok_inj in H. subst p. cbn [rainfall max0].
  destruct (Qltb 0 (round (rm X) 2)) eqn:E.
  - apply Qltb_lt in E. lra.
  - lra.
Qed.

Lemma np_average_returns (a w : list Q) :
  length a = length w -> ~ Qsum w == 0 -> exists avg, np_average a w = Ok avg.
Proof.
  intros Hlen Hsum. unfold np_average.
  rewrite Hlen, Nat.eqb_refl. cbn [negb].
  destruct (Qeq_bool (Qsum w) 0) eqn:E.
  - apply Qeq_bool_iff in E. contradiction.
  - eauto.
Qed.

Lemma predict_temperature_returns (self : WeatherMLModels) (features : list Q) :
  ready self -> exists p, predict_temperature self features = Ok p.
Proof.
  intros [[tr Hsc] (e & Hm & Hlen & Hsum) _ _ _].
  unfold predict_temperature.
  rewrite (scale_fitted self tr features Hsc), bind_Ok.
  rewrite (getitem_Some _ _ _ Hm), bind_Ok. cbn [as_ensemble]. rewrite bind_Ok.
  destruct (np_average_returns
              [lr e (tr features); rf e (tr features); gb e (tr features)]
              (weights e)) as [avg Eavg]; [now rewrite Hlen | exact Hsum |].
  rewrite Eavg, bind_Ok, ensemble_accuracy, bind_Ok. eauto.
Qed.

Lemma predict_all_returns (self : WeatherMLModels) (features : list Q) :
  ready self -> exists p, predict_all self features = Ok p.
Proof.
  intros Hready.
  destruct (predict_temperature_returns self features Hready) as [t Et].
  destruct Hready as [[tr Hsc] _ [hm Hh] [rm Hr] [am Ha]].
  unfold predict_all.
  rewrite (scale_fitted self tr features Hsc), bind_Ok, Et, bind_Ok.
  rewrite (getitem_Some _ _ _ Hh), (getitem_Some _ _ _ Hr), (getitem_Some _ _ _ Ha).
  rewrite !bind_Ok. cbn [as_estimator]. rewrite !bind_Ok. eauto.
Qed.

Lemma constant_store_ready (a b c h r q : Q) : ready (constant_store a b c h r q).
Proof.
  split; cbn [constant_store models scalers]; eexists;
    try (split; [| split]); try reflexivity.
  cbn [weights]. intros H. vm_compute in H. discriminate H.
Qed.

(** C4. On a ready container, for every feature vector, [predict_all]
    returns a bundle and its rainfall value is greater than or equal
    to 0. *)
Theorem predict_all_rainfall_floor (self : WeatherMLModels) (features : list Q) :
  ready self ->
  exists p, predict_all self features = Ok p /\ 0 <= rainfall p.
Proof.
  intros Hready.
  destruct (predict_all_returns self features Hready) as [p Ep].
  exists p. split; [exact Ep |].
  exact (predict_all_rainfall_nonneg self features p Ep).
Qed.

Lemma predict_all_rainfall_floor_witness :
  exists p,
    predict_all (constant_store 30 31 32 70 (-2.5) 40) [28; 75; 1013; 10.8] = Ok p /\
    0 <= rainfall p.
Proof.
  apply predict_all_rainfall_floor. apply constant_store_ready.
Defined.

(** ** Risk assessment *)

Lemma mean_of_nothing_is_not_below (y : Q) : np_lt (np_mean []) y = false.
Proof. reflexivity. Qed.

(** With no forecast entries the drought alert is never raised. *)
Lemma no_drought_without_forecast
    (temp_prediction : temperature_prediction) (current_features : list Q) :
  ~ In drought (assess_risks temp_prediction current_features []).
Proof.
  unfold assess_risks. cbn [map]. rewrite mean_of_nothing_is_not_below.
  destruct (Qltb 35 (temp temp_prediction));
    destruct (Qltb 100 _); cbn [app In]; intros H;
    repeat (destruct H as [H | H]; [discriminate H |]); exact H.
Qed.

(** C3. With a predicted temperature of 36, no forecast entries and the
    fourth current feature equal to 50, [assess_risks] returns exactly
    one alert, heat stress with severity high; and whatever the other
    inputs, the drought rule does not fire without forecast entries. *)
Theorem assess_risks_heat_stress_only
    (t conf f0 f1 f2 f3 : Q) (rest : list Q) :
  t == 36 -> f3 == 50 ->
  (exists alert,
     assess_risks {| temp := t; confidence := conf |}
                  (f0 :: f1 :: f2 :: f3 :: rest) [] = [alert] /\
     risk_type alert = "heat_stress" /\ severity alert = "high") /\
  (forall temp_prediction current_features,
     ~ In drought (assess_risks temp_prediction current_features [])).
Proof.
  intros Ht Hf. split; [| exact no_drought_without_forecast].
  exists heat_stress. split; [| split; reflexivity].
  unfold assess_risks. cbn [map temp length nth].
  rewrite mean_of_nothing_is_not_below.
  assert (H35 : Qltb 35 t = true) by (apply Qltb_lt; lra).
  assert (H100 : Qltb 100 f3 = false) by (apply Qltb_ge; lra).
  rewrite H35. cbn [Nat.ltb Nat.leb]. rewrite H100. reflexivity.
Qed.

Lemma assess_risks_heat_stress_only_witness :
  (exists alert,
     assess_risks {| temp := 36; confidence := 95.8 |} [28; 75; 1013; 50] []
       = [alert] /\
     risk_type alert = "heat_stress" /\ severity alert = "high") /\
  (forall temp_prediction current_features,
     ~ In drought (assess_risks temp_prediction current_features [])).
Proof.
  apply (assess_risks_heat_stress_only 36 95.8 28 75 1013 50 []); reflexivity.
Defined.

(** ** Feature extraction *)

Lemma field_or_default (w : weather_item) (group key : string) (d : Q) :
  supplied w group key (default d (default ∅ (w !! group) !! key)) \/
  (missing w group key /\ default d (default ∅ (w !! group) !! key) = d).
Proof.
  unfold supplied, missing.
  destruct (w !! group) as [fields |] eqn:Eg; cbn [default from_option id].
  - destruct (fields !! key) as [x |] eqn:Ek; cbn [default from_option id].
    + left. exists fields. split; [reflexivity | exact Ek].
    + right. split; [right; exists fields; split; [reflexivity | exact Ek] |].
      reflexivity.
  - right. rewrite lookup_empty. split; [left |]; reflexivity.
Qed.

Lemma missing_default (w : weather_item) (group key : string) (d : Q) :
  missing w group key -> default d (default ∅ (w !! group) !! key) = d.
Proof.
  intros [Hg | (fields & Hg & Hk)]; rewrite Hg; cbn [default from_option id].
  - now rewrite lookup_empty.
  - now rewrite Hk.
Qed.

(** C8. The feature vector always has its four entries: each weather
    field is the supplied value or, when missing, its default (28, 75,
    1013, and 3 m/s for the wind speed); the wind entry is that speed
    times 3.6; with every field missing the vector is
    [28, 75, 1013, 10.8]. *)
Theorem extract_features_defaults (current_weather : weather_item) :
  (exists t h p w,
     extract_features current_weather = [t; h; p; w * 3.6] /\
     (supplied current_weather "main" "temp" t \/
      (missing current_weather "main" "temp" /\ t = 28)) /\
     (supplied current_weather "main" "humidity" h \/
      (missing current_weather "main" "humidity" /\ h = 75)) /\
     (supplied current_weather "main" "pressure" p \/
      (missing current_weather "main" "pressure" /\ p = 1013)) /\
     (supplied current_weather "wind" "speed" w \/
      (missing current_weather "wind" "speed" /\ w = 3))) /\
  (missing current_weather "main" "temp" ->
   missing current_weather "main" "humidity" ->
   missing current_weather "main" "pressure" ->
   missing current_weather "wind" "speed" ->
   extract_features current_weather = [28; 75; 1013; 10.8]).
Proof.
  split.
  - do 4 eexists. split; [reflexivity |].
    repeat split; apply field_or_default.
  - intros Ht Hh Hp Hw. unfold extract_features.
    rewrite (missing_default _ _ _ 28 Ht), (missing_default _ _ _ 75 Hh),
      (missing_default _ _ _ 1013 Hp), (missing_default _ _ _ 3 Hw).
    reflexivity.
Qed.

(** A request body without [current_weather] is served from the default
    feature vector. *)
Lemma predict_weather_all_defaults (self : WeatherMLModels) :
  predict_weather self {| current_weather := None; forecast := None |} =
  match predict_temperature self [28; 75; 1013; 10.8] with
  | Ok t => PredictSuccess t [] (assess_risks t [28; 75; 1013; 10.8] [])
  | Raise e => PredictFailure e
  end.
Proof.
  unfold predict_weather. cbn [current_weather forecast default from_option id].
  change (extract_features ∅) with [28; 75; 1013; 10.8].
  rewrite lookup_empty.
  destruct (predict_temperature self [28; 75; 1013; 10.8]); reflexivity.
Qed.

Lemma extract_features_defaults_witness :
  extract_features ∅ = [28; 75; 1013; 10.8].
Proof.
  apply (extract_features_defaults ∅); left; reflexivity.
Defined.

(** ** Forecast sampling *)

Lemma range_loop_every_8th (fuel start stop : nat) :
  (stop <= start + 8 * fuel)%nat ->
  range_loop fuel start stop 8 =
  map (λ k, start + 8 * k)%nat (seq 0 ((stop + 7 - start) / 8)).
Proof.
  revert start. induction fuel as [| fuel IH]; intros start Hfuel.
  - replace ((stop + 7 - start) / 8)%nat with 0%nat by lia. reflexivity.
  - cbn [range_loop]. destruct (start <? stop)%nat eqn:E.
    + apply Nat.ltb_lt in E. rewrite IH by lia.
      replace ((stop + 7 - start) / 8)%nat
        with (S ((stop + 7 - (start + 8)) / 8)) by lia.
      cbn [seq map]. rewrite <- seq_shift, map_map.
      f_equal; [lia |]. apply map_ext. intros k. lia.
    + apply Nat.ltb_ge in E.
      replace ((stop + 7 - start) / 8)%nat with 0%nat by lia. reflexivity.
Qed.

(** The loop visits the indices 0, 8, 16, ..., at most seven of them. *)
Lemma sampled_indices_every_8th (series : list weather_item) :
  sampled_indices series =
  map (λ k, 8 * k)%nat (seq 0 (Nat.min 7 ((length series + 7) / 8))).
Proof.
  unfold sampled_indices, range. rewrite range_loop_every_8th by lia.
  replace ((Nat.min 56 (length series) + 7 - 0) / 8)%nat
    with (Nat.min 7 ((length series + 7) / 8)) by lia.
  reflexivity.
Qed.

Lemma mapM_Ok_inv {A B : Type} (f : A -> result B) (l : list A) (k : list B) :
  mapM f l = Ok k -> Forall2 (λ x y, f x = Ok y) l k.
Proof.
  revert k. induction l as [| x l IH]; intros k H.
  - apply Ok_inj in H. subst k. constructor.
  - cbn [mapM] in H.
    apply bind_Ok_inv in H as (y & Ey & H).
    apply bind_Ok_inv in H as (k' & Ek' & H).
    apply Ok_inj in H. subst k. constructor; [exact Ey | now apply IH].
Qed.


(** What the forecast loop returns, entry by entry. *)
Lemma forecast_loop_entries
    (self : WeatherMLModels) (series : list weather_item) (fps : list prediction) :
  forecast_loop self series = Ok fps ->
  length fps = Nat.min 7 ((length series + 7) / 8) /\
  forall k, (k < Nat.min 7 ((length series + 7) / 8))%nat ->
    exists item feats p,
      series !! (8 * k)%nat = Some item /\
      forecast_features item = Ok feats /\
      predict_all self feats = Ok p /\
      fps !! k = Some p.
Proof.
  unfold forecast_loop. rewrite sampled_indices_every_8th.
  set (n := Nat.min 7 ((length series + 7) / 8)).
  intros H. apply mapM_Ok_inv in H.
  pose proof (Forall2_length _ _ _ H) as Hlen.
  rewrite length_map, length_seq in Hlen.
  split; [now symmetry |].
  intros k Hk.
  assert (Hidx : map (λ k, 8 * k)%nat (seq 0 n) !! k = Some (8 * k)%nat).
  { change (map (λ k, 8 * k)%nat (seq 0 n)) with ((λ k, 8 * k)%nat <$> seq 0 n).
    rewrite list_lookup_fmap, lookup_seq_lt by exact Hk. reflexivity. }
  destruct (Forall2_lookup_l _ _ _ _ _ H Hidx) as (p & Hp & Hbody).
  apply bind_Ok_inv in Hbody as (item & Hitem & Hbody).
  apply bind_Ok_inv in Hbody as (feats & Hfeats & Hbody).
  exists item, feats, p. repeat split; try assumption.
  unfold index in Hitem. destruct (series !! (8 * k)%nat); [| discriminate].
  apply Ok_inj in Hitem. now subst.
Qed.


(** C9. When the request carries a forecast series and the endpoint
    answers with success, the loop has sampled the entries at indices
    0, 8, 16, ... below min(56, len(series)): [forecast_predictions] has
    length min(7, ceil(len(series) / 8)) and its k-th entry is the
    prediction for entry 8k of the series. *)
Theorem forecast_sampling_every_8th_up_to_7
    (self : WeatherMLModels) (data : predict_request)
    (series : list weather_item)
    (t : temperature_prediction) (fps : list prediction) (risks : list risk) :
  default ∅ (forecast data) !! "list" = Some series ->
  predict_weather self data = PredictSuccess t fps risks ->
  sampled_indices series =
    map (λ k, 8 * k)%nat (seq 0 (Nat.min 7 ((length series + 7) / 8))) /\
  length fps = Nat.min 7 ((length series + 7) / 8) /\
  forall k, (k < Nat.min 7 ((length series + 7) / 8))%nat ->
    exists item feats p,
      series !! (8 * k)%nat = Some item /\
      forecast_features item = Ok feats /\
      predict_all self feats = Ok p /\
      fps !! k = Some p.
Proof.
  intros Hlist Hresp. split; [apply sampled_indices_every_8th |].
  apply (forecast_loop_entries self series fps).
  unfold predict_weather in Hresp. rewrite Hlist in Hresp.
  destruct (predict_temperature self _) as [t' |]; [| discriminate].
  rewrite bind_Ok in Hresp.
  destruct (forecast_loop self series) as [fps' |]; [| discriminate].
  rewrite bind_Ok in Hresp. congruence.
Qed.

Lemma forecast_sampling_every_8th_up_to_7_witness :
  exists t fps risks,
    predict_weather (constant_store 30 31 32 70 1 40)
      {| current_weather := None;
         forecast := Some {[ "list" := sample_series ]} |}
      = PredictSuccess t fps risks /\
    sampled_indices sample_series = [0; 8; 16]%nat /\
    length fps = 3%nat.
Proof.
  do 3 eexists.
  assert (Hresp :
    predict_weather (constant_store 30 31 32 70 1 40)
      {| current_weather := None; forecast := Some {[ "list" := sample_series ]} |}
    = PredictSuccess
        {| temp := 156 # 5; confidence := 95.8 |}
        (replicate 3 {| temperature := {| temp := 156 # 5; confidence := 95.8 |};
                        humidity := 70; rainfall := 1; aqi := 40 |})
        [drought]) by (vm_compute; reflexivity).
  split; [exact Hresp |].
  assert (Hlist :
    default ∅ (forecast {| current_weather := None;
                           forecast := Some {[ "list" := sample_series ]} |})
      !! "list" = Some sample_series) by reflexivity.
  destruct (forecast_sampling_every_8th_up_to_7 _ _ sample_series _ _ _ Hlist Hresp)
    as (Hidx & Hlen & _).
  split; [exact Hidx | exact Hlen].
Defined.

(** ** Retraining *)

Ltac run_stmt :=
  cbv beta iota delta [train_models mbind stmt_bind call set_scaler set_model
                       create_training_data scaler_fit_transform temp_lr_fit
                       temp_rf_fit temp_gb_fit humidity_model_fit
                       rainfall_model_fit aqi_model_fit save_models].

(** A failed [train_models] leaves exactly the container that the
    assignments before the raising call built. *)
Lemma train_models_failure (run : training_run)
    (self self' : WeatherMLModels) (e : exn) :
  train_models run self = (self', Raise e) <-> left_after_failure run self e self'.
Proof.
  split.
  - destruct run as [cd sf tl tr tg hm rm am sv]. run_stmt.
    destruct cd as [u | e0]; [| intros [= <- <-]; now constructor].
    destruct sf as [f | e0]; [| intros [= <- <-]; now econstructor].
    destruct tl as [l | e0];
      [| intros [= <- <-]; eapply failed_temperature; eauto].
    destruct tr as [r | e0];
      [| intros [= <- <-]; eapply failed_temperature; eauto 6].
    destruct tg as [g | e0];
      [| intros [= <- <-]; eapply failed_temperature; eauto 8].
    intros H. eapply failed_later; try reflexivity.
    destruct hm as [h | e0]; [| injection H as <- <-; now constructor].
    destruct rm as [rn | e0]; [| injection H as <- <-; now econstructor].
    destruct am as [a | e0]; [| injection H as <- <-; now econstructor].
    destruct sv as [u' | e0]; [discriminate H |].
    injection H as <- <-. now econstructor.
  - intros H.
    cbv beta delta [train_models mbind stmt_bind call set_scaler set_model].
    destruct H as [-> | u -> -> | u f -> -> Ht | u f l r g s1 -> -> -> -> -> -> s' Hs].
    + reflexivity.
    + reflexivity.
    + destruct Ht as [-> | (l & -> & [-> | (r & -> & ->)])]; reflexivity.
    + destruct Hs as [-> | h -> -> | h rn -> -> -> | h rn a -> -> -> ->]; reflexivity.
Qed.

(** C2, as the spec words it, fails: [train_models] assigns into the
    live container as it goes.  When only the final [save_models]
    raises, the endpoint reports the failure, yet the container already
    holds the new scaler and models, and the next temperature prediction
    comes from them (20.0 in place of 31.2, that is 156/5). *)
Lemma retrain_failure_changes_predictions :
  exists ml_models',
    retrain_models (save_fails 20 20 20 60 0 30)
                   (constant_store 30 31 32 70 1 40)
      = (ml_models', RetrainFailure OSError) /\
    predict_temperature (constant_store 30 31 32 70 1 40) [28; 75; 1013; 10.8]
      = Ok {| temp := 156 # 5; confidence := 95.8 |} /\
    predict_temperature ml_models' [28; 75; 1013; 10.8]
      = Ok {| temp := 20; confidence := 95.8 |} /\
    ml_models' <> constant_store 30 31 32 70 1 40.
Proof.
  eexists. split; [reflexivity |].
  split; [vm_compute; reflexivity |].
  split; [vm_compute; reflexivity |].
  intros H.
  apply (f_equal (λ self, predict_temperature self [28; 75; 1013; 10.8])) in H.
  vm_compute in H. discriminate H.
Qed.

(** When the scaler's fit raises, the container is left with an unfitted
    scaler and every later prediction raises. *)
Lemma retrain_failure_can_disable_prediction
    (run : training_run) (self : WeatherMLModels) (u : unit) (e : exn)
    (features : list Q) :
  create_training_data run = Ok u ->
  scaler_fit_transform run = Raise e ->
  predict_temperature (fst (retrain_models run self)) features
    = Raise NotFittedError.
Proof.
  intros Hd Hs. unfold retrain_models.
  assert (E : train_models run self
              = (with_scaler "features" Unfitted self, Raise e)).
  { apply train_models_failure. now apply (failed_scaler run self e u). }
  rewrite E. cbn [fst]. unfold predict_temperature, scale.
  cbn [with_scaler scalers]. unfold getitem. rewrite lookup_insert_eq.
  reflexivity.
Qed.

(** A run in which every call returns leaves a ready container that
    holds the new objects. *)
Lemma train_models_success (run : training_run) (self self' : WeatherMLModels)
    (u : unit) :
  train_models run self = (self', Ok u) ->
  ready self' /\
  exists transform temp_lr temp_rf temp_gb,
    scaler_fit_transform run = Ok transform /\
    temp_lr_fit run = Ok temp_lr /\
    temp_rf_fit run = Ok temp_rf /\
    temp_gb_fit run = Ok temp_gb /\
    scalers self' !! "features" = Some (Fitted transform) /\
    models self' !! "temp_ensemble" =
      Some (EnsembleDict {| lr := temp_lr; rf := temp_rf; gb := temp_gb;
                            weights := [0.2; 0.4; 0.4] |}).
Proof.
  destruct run as [cd sf tl tr tg hm rm am sv]. run_stmt.
  destruct cd as [u0 |]; [| discriminate].
  destruct sf as [f |]; [| discriminate].
  destruct tl as [l |]; [| discriminate].
  destruct tr as [r |]; [| discriminate].
  destruct tg as [g |]; [| discriminate].
  destruct hm as [h |]; [| discriminate].
  destruct rm as [rn |]; [| discriminate].
  destruct am as [a |]; [| discriminate].
  destruct sv as [u1 |]; [| discriminate].
  intros [= <- _].
  split.
  - split; cbn [with_model with_scaler models scalers].
    + eexists. apply lookup_insert_eq.
    + eexists. split; [| split].
      * do 3 (rewrite lookup_insert_ne by discriminate). apply lookup_insert_eq.
      * reflexivity.
      * cbn [weights]. intros H. vm_compute in H. discriminate H.
    + eexists. do 2 (rewrite lookup_insert_ne by discriminate).
      apply lookup_insert_eq.
    + eexists. rewrite lookup_insert_ne by discriminate. apply lookup_insert_eq.
    + eexists. apply lookup_insert_eq.
  - exists f, l, r, g. repeat split; cbn [with_model with_scaler models scalers].
    + apply lookup_insert_eq.
    + do 3 (rewrite lookup_insert_ne by discriminate). apply lookup_insert_eq.
Qed.

(** Retraining with a run that raises nowhere reports success and
    leaves a ready container, whatever the container held before. *)
Lemma retrain_good_run (a b c h r q : Q) (ml_models : WeatherMLModels) :
  snd (retrain_models (good_run a b c h r q) ml_models)
    = RetrainSuccess "Models retrained successfully" /\
  ready (fst (retrain_models (good_run a b c h r q) ml_models)).
Proof.
  split; [reflexivity |].
  apply (train_models_success (good_run a b c h r q) ml_models _ tt).
  reflexivity.
Qed.

(** C2 (amended). If retraining fails, [retrain_models] reports the
    failure and the container is left as the assignments made before the
    raising call built it: unchanged only when [create_training_data]
    raised; with an unfitted scaler when the scaler's fit raised; and
    otherwise with the newly fitted scaler and every model entry
    (temp_ensemble, humidity, rainfall, aqi, in that order) whose fit had
    completed.  Nothing is rolled back and nothing else is touched. *)
Theorem retrain_failure_keeps_assignments
    (run : training_run) (ml_models ml_models' : WeatherMLModels) (e : exn) :
  retrain_models run ml_models = (ml_models', RetrainFailure e) <->
  left_after_failure run ml_models e ml_models'.
Proof.
  rewrite <- train_models_failure. unfold retrain_models.
  destruct (train_models run ml_models) as [self' [u | e0]].
  - split; intros H; discriminate H.
  - split; intros [= <- <-]; reflexivity.
Qed.

Lemma retrain_failure_keeps_assignments_witness :
  left_after_failure (save_fails 20 20 20 60 0 30)
    (constant_store 30 31 32 70 1 40) OSError
    (fst (retrain_models (save_fails 20 20 20 60 0 30)
                         (constant_store 30 31 32 70 1 40))).
Proof.
  apply (retrain_failure_keeps_assignments (save_fails 20 20 20 60 0 30)
           (constant_store 30 31 32 70 1 40)).
  reflexivity.
Defined.

(** * Further properties *)

(** ** The three risk rules *)




(** Alerts come in the fixed order heat stress, drought, air quality, each
    at most once. *)
Theorem assess_risks_order
    (temp_prediction : temperature_prediction) (current_features : list Q)
    (forecast_predictions : list prediction) :
  sublist (assess_risks temp_prediction current_features forecast_predictions)
          [heat_stress; drought; air_quality].
Proof.
  unfold assess_risks.
  destruct (Qltb 35 _); destruct (np_lt _ 2); destruct (Qltb 100 _); cbn [app];
    repeat first [apply sublist_nil | apply sublist_skip | apply sublist_cons].
Qed.

(** ** Classification of temperature and humidity *)




(** ** Score and classification together *)








(** ** The gap below a full score *)

(** Linear arithmetic over [Q] once the divisions by 2 are written as
    products. *)
Ltac lra_halves := unfold Qdiv in *; change (/ 2) with (1 # 2) in *; lra.

Lemma distance_to_midpoint (lo hi v : Q) :
  lo <= hi -> v < lo \/ hi < v -> (hi - lo) / 2 <= Qabs (v - (lo + hi) / 2).
Proof.
  intros Hle [H | H].
  - rewrite <- Qabs_opp. eapply Qle_trans; [| apply Qle_Qabs]. lra_halves.
  - eapply Qle_trans; [| apply Qle_Qabs]. lra_halves.
Qed.

Lemma range_score_outside_bound (lo hi v k B s : Q) :
  lo <= hi -> 0 <= k -> 0 <= B -> 100 - (hi - lo) / 2 * k <= B ->
  v < lo \/ hi < v ->
  range_score [lo; hi] v k = Ok s -> s <= B.
Proof.
  intros Hle Hk HB Hbound Hout Es.
  destruct (range_score_outside lo hi v k Hout) as (s' & Es' & Hs').
  rewrite Es in Es'. apply Ok_inj in Es'. subst s'. rewrite Hs'.
  apply Q.max_lub; [exact HB |].
  pose proof (distance_to_midpoint lo hi v Hle Hout) as Hd.
  assert (Hm : (hi - lo) / 2 * k <= Qabs (v - (lo + hi) / 2) * k)
    by (apply Qmult_le_compat_r; assumption).
  set (d := Qabs (v - (lo + hi) / 2) * k) in *.
  set (w := (hi - lo) / 2 * k) in *. lra.
Qed.

Lemma round1_upper (x : Q) (n : Z) :
  0 <= x -> x * 10 <= inject_Z n -> round x 1 <= inject_Z n / 10.
Proof.
  intros H0 Hn. rewrite round_eq. change (inject_Z (10 ^ Z.of_nat 1)) with 10.
  destruct (rint_between 0 n (x * 10)) as [_ Hhi].
  - change (inject_Z 0) with 0. lra.
  - exact Hn.
  - assert (H : inject_Z (rint (x * 10)) <= inject_Z n) by now rewrite <- Zle_Qle.
    unfold Qdiv. apply Qmult_le_compat_r; [exact H |]. apply Qinv_le_0_compat. lra.
Qed.

Lemma table_entry (crop : string) :
  default {| temp_range := [20; 35]; humidity_range := [70; 90];
             optimal_rainfall := [1500; 2000] |} (crop_requirements !! crop)
  ∈ [ {| temp_range := [20; 35]; humidity_range := [70; 90];
          optimal_rainfall := [1500; 2000] |};
       {| temp_range := [12; 25]; humidity_range := [50; 70];
          optimal_rainfall := [500; 750] |};
       {| temp_range := [21; 30]; humidity_range := [60; 80];
          optimal_rainfall := [600; 1200] |} ].
Proof.
  destruct (crop_requirements !! crop) as [req |] eqn:E; cbn [default from_option id].
  - unfold crop_requirements in E.
    apply lookup_insert_Some in E as [[_ <-] | [_ E]]; [set_solver |].
    apply lookup_insert_Some in E as [[_ <-] | [_ E]]; [set_solver |].
    apply lookup_insert_Some in E as [[_ <-] | [_ E]]; [set_solver |].
    rewrite lookup_empty in E. discriminate E.
  - set_solver.
Qed.

Lemma temperature_not_success_outside
    (format_num : Q -> string) (t lo hi : Q) (hr rain : list Q)
    (r : recommendation) :
  temperature_analysis format_num t
    {| temp_range := [lo; hi]; humidity_range := hr;
       optimal_rainfall := rain |} = Ok r ->
  rec_type r <> "success" -> t < lo \/ hi < t.
Proof.
  unfold temperature_analysis. cbn [temp_range].
  change (index [lo; hi] 0) with (Ok lo).
  change (index [lo; hi] 1) with (Ok hi). rewrite bind_Ok.
  destruct (Qltb t lo) eqn:E1; [apply Qltb_lt in E1; now left |].
  rewrite bind_Ok. destruct (Qltb hi t) eqn:E2; [apply Qltb_lt in E2; now right |].
  intros H. apply Ok_inj in H. subst r. intros H. now contradiction H.
Qed.

Lemma humidity_not_success_outside
    (format_num : Q -> string) (h lo hi : Q) (tr rain : list Q)
    (r : recommendation) :
  humidity_analysis format_num h
    {| temp_range := tr; humidity_range := [lo; hi];
       optimal_rainfall := rain |} = Ok r ->
  rec_type r <> "success" -> h < lo \/ hi < h.
Proof.
  unfold humidity_analysis. cbn [humidity_range].
  change (index [lo; hi] 0) with (Ok lo).
  change (index [lo; hi] 1) with (Ok hi). rewrite bind_Ok.
  destruct (Qltb h lo) eqn:E1; [apply Qltb_lt in E1; now left |].
  rewrite bind_Ok. destruct (Qltb hi h) eqn:E2; [apply Qltb_lt in E2; now right |].
  intros H. apply Ok_inj in H. subst r. intros H. now contradiction H.
Qed.

Lemma score_gap_entry
    (format_num : Q -> string) (t h lo hi lo' hi' : Q) (rain : list Q)
    (rt rh : recommendation) (s : Q) :
  lo <= hi -> lo' <= hi' ->
  100 - (hi - lo) / 2 * 10 <= 55 -> 100 - (hi' - lo') / 2 * 5 <= 55 ->
  temperature_analysis format_num t
    {| temp_range := [lo; hi]; humidity_range := [lo'; hi'];
       optimal_rainfall := rain |} = Ok rt ->
  humidity_analysis format_num h
    {| temp_range := [lo; hi]; humidity_range := [lo'; hi'];
       optimal_rainfall := rain |} = Ok rh ->
  calculate_compatibility_score t h
    {| temp_range := [lo; hi]; humidity_range := [lo'; hi'];
       optimal_rainfall := rain |} = Ok s ->
  rec_type rt <> "success" \/ rec_type rh <> "success" ->
  s <= 77.5.
Proof.
  intros Hle Hle' Hb Hb' Et Eh Es Hns.
  unfold calculate_compatibility_score in Es. cbn [temp_range humidity_range] in Es.
  apply bind_Ok_inv in Es as (ts & Ets & Es).
  apply bind_Ok_inv in Es as (hs & Ehs & Es).
  apply Ok_inj in Es. subst s.
  assert (H10 : 0 <= 10) by lra. assert (H5 : 0 <= 5) by lra.
  destruct (range_score_between _ _ _ _ H10 Ets) as [Hts0 Hts100].
  destruct (range_score_between _ _ _ _ H5 Ehs) as [Hhs0 Hhs100].
  assert (Hlow : ts <= 55 \/ hs <= 55).
  { destruct Hns as [Hn | Hn]; [left | right].
    - apply (range_score_outside_bound lo hi t 10 55 ts); try assumption; try lra.
      exact (temperature_not_success_outside _ _ _ _ _ _ _ Et Hn).
    - apply (range_score_outside_bound lo' hi' h 5 55 hs); try assumption; try lra.
      exact (humidity_not_success_outside _ _ _ _ _ _ _ Eh Hn). }
  eapply Qle_trans; [apply (round1_upper _ 775) |].
  - apply Qle_shift_div_l; lra.
  - change (inject_Z 775) with 775.
    assert (Hd : (ts + hs) / 2 * 10 == (ts + hs) * 5) by field.
    rewrite Hd. destruct Hlow; lra.
  - change (inject_Z 775) with 775. apply Qle_shift_div_r; lra.
Qed.

(** For every crop key, a recommendation that is not success costs at
    least 22.5 points: the score is then at most 77.5, so no score lies
    strictly between 77.5 and 100. *)
Theorem score_gap_below_full
    (format_num : Q -> string) (crop : string) (t h : Q)
    (rt rh : recommendation) (s : Q) :
  recommend format_num crop t h = Ok ([rt; rh], s) ->
  rec_type rt <> "success" \/ rec_type rh <> "success" ->
  s <= 77.5.
Proof.
  unfold recommend. rewrite rice_entry, bind_Ok. cbv zeta.
  pose proof (table_entry crop) as Hreq.
  set (req := default _ (crop_requirements !! crop)) in *.
  intros H Hns.
  apply bind_Ok_inv in H as (rt' & Et & H).
  apply bind_Ok_inv in H as (rh' & Eh & H).
  apply bind_Ok_inv in H as (s' & Es & H).
  apply Ok_inj in H. injection H as -> -> ->.
  repeat (apply elem_of_cons in Hreq as [Hreq | Hreq];
          [rewrite Hreq in Et, Eh, Es;
           refine (score_gap_entry format_num t h _ _ _ _ _ rt rh s
                     _ _ _ _ Et Eh Es Hns);
           clear; lra_halves |]).
  apply elem_of_nil in Hreq. contradiction.
Qed.

Lemma score_gap_below_full_witness :
  exists rt rh s,
    recommend (fun _ => "28") "wheat" 28 75 = Ok ([rt; rh], s) /\ s <= 77.5.
Proof.
  do 3 eexists.
  assert (E : recommend (fun _ => "28") "wheat" 28 75
              = Ok ([ {| rec_type := "critical"; parameter := "temperature";
                         message := "Temperature (28°C) is above optimal range";
                         action := "Increase irrigation frequency and consider shade netting" |};
                      {| rec_type := "warning"; parameter := "humidity";
                         message := "Humidity (28%) is high";
                         action := "Monitor for fungal diseases and ensure proper ventilation" |} ],
                    15)) by (vm_compute; reflexivity).
  split; [exact E |].
  apply (score_gap_below_full _ _ _ _ _ _ _ E). left. discriminate.
Defined.

(** ** When prediction is possible *)

Lemma getitem_Ok_inv {V : Type} (d : gmap string V) (key : string) (v : V) :
  getitem d key = Ok v -> d !! key = Some v.
Proof. unfold getitem. destruct (d !! key); intros H; [congruence | discriminate H]. Qed.

Lemma getitem_None {V : Type} (d : gmap string V) (key : string) :
  d !! key = None -> getitem d key = Raise (KeyError key).
Proof. intros H. unfold getitem. now rewrite H. Qed.

Lemma scale_Ok_inv (self : WeatherMLModels) (features X : list Q) :
  scale self features = Ok X ->
  exists transform,
    scalers self !! "features" = Some (Fitted transform) /\ X = transform features.
Proof.
  unfold scale. intros H. apply bind_Ok_inv in H as (sc & Hsc & H).
  apply getitem_Ok_inv in Hsc. destruct sc as [| transform]; [discriminate H |].
  apply Ok_inj in H. eauto.
Qed.

Lemma np_average_Ok_inv (a w : list Q) (avg : Q) :
  np_average a w = Ok avg ->
  length a = length w /\ ~ Qsum w == 0 /\
  avg = Qsum (zip_with Qmult a w) / Qsum w.
Proof.
  unfold np_average. destruct (length a =? length w)%nat eqn:El; cbn [negb];
    [| intros H; discriminate H].
  apply Nat.eqb_eq in El.
  destruct (Qeq_bool (Qsum w) 0) eqn:Es; [intros H; discriminate H |].
  intros H. apply Ok_inj in H. repeat split; [exact El | | now symmetry].
  intros Hz. apply Qeq_bool_iff in Hz. congruence.
Qed.

Lemma estimator_Ok_inv (self : WeatherMLModels) (key : string) (r : regressor) :
  getitem (models self) key ≫= as_estimator = Ok r ->
  models self !! key = Some (Estimator r).
Proof.
  intros H. apply bind_Ok_inv in H as (m & Hm & H).
  apply getitem_Ok_inv in Hm. destruct m as [e | r']; [discriminate H |].
  apply Ok_inj in H. now subst.
Qed.

Lemma predict_all_returns_aux (self : WeatherMLModels) (features : list Q) :
  (exists p, predict_all self features = Ok p) -> ready self.
Proof.
  intros [p H]. unfold predict_all in H.
  apply bind_Ok_inv in H as (X & HX & H).
  apply bind_Ok_inv in H as (t & Ht & H).
  apply bind_Ok_inv in H as (hm & Hh & H).
  apply bind_Ok_inv in H as (rm & Hr & H).
  apply bind_Ok_inv in H as (am & Ha & _).
  apply scale_Ok_inv in HX as (transform & Hsc & _).
  unfold predict_temperature in Ht.
  apply bind_Ok_inv in Ht as (X' & _ & Ht).
  apply bind_Ok_inv in Ht as (m & Hm & Ht).
  apply bind_Ok_inv in Ht as (ens & He & Ht).
  apply bind_Ok_inv in Ht as (avg & Havg & _).
  apply getitem_Ok_inv in Hm. destruct m as [e |]; [| discriminate He].
  apply Ok_inj in He. subst ens.
  apply np_average_Ok_inv in Havg as (Hlen & Hsum & _).
  split.
  - eauto.
  - exists e. split; [exact Hm |]. split; [now symmetry | exact Hsum].
  - exists hm. now apply estimator_Ok_inv.
  - exists rm. now apply estimator_Ok_inv.
  - exists am. now apply estimator_Ok_inv.
Qed.

(** [predict_all] returns exactly on the ready containers, whatever the
    feature vector: a fitted scaler, the ensemble dict with three weights
    that do not sum to zero, and the three single estimators. *)
Theorem predict_all_returns_iff (self : WeatherMLModels) (features : list Q) :
  (exists p, predict_all self features = Ok p) <-> ready self.
Proof.
  split.
  - apply predict_all_returns_aux.
  - apply predict_all_returns.
Qed.

(** What a container that is not set up raises, for both prediction
    functions: [KeyError 'features'] without a scaler entry,
    [NotFittedError] with an unfitted scaler, [KeyError 'temp_ensemble']
    with a fitted scaler and no ensemble entry. *)
Theorem prediction_errors_when_not_set_up
    (self : WeatherMLModels) (features : list Q) :
  (scalers self !! "features" = None ->
   predict_temperature self features = Raise (KeyError "features") /\
   predict_all self features = Raise (KeyError "features")) /\
  (scalers self !! "features" = Some Unfitted ->
   predict_temperature self features = Raise NotFittedError /\
   predict_all self features = Raise NotFittedError) /\
  (forall transform,
   scalers self !! "features" = Some (Fitted transform) ->
   models self !! "temp_ensemble" = None ->
   predict_temperature self features = Raise (KeyError "temp_ensemble") /\
   predict_all self features = Raise (KeyError "temp_ensemble")).
Proof.
  unfold predict_all, predict_temperature, scale. repeat split.
  - rewrite (getitem_None _ _ H). reflexivity.
  - rewrite (getitem_None _ _ H). reflexivity.
  - rewrite (getitem_Some _ _ _ H). reflexivity.
  - rewrite (getitem_Some _ _ _ H). reflexivity.
  - rewrite (getitem_Some _ _ _ H), !bind_Ok, (getitem_None _ _ H0). reflexivity.
  - rewrite (getitem_Some _ _ _ H), !bind_Ok, (getitem_None _ _ H0). reflexivity.
Qed.

Lemma prediction_errors_when_not_set_up_witness :
  predict_temperature {| models := ∅; scalers := ∅ |} [28; 75; 1013; 10.8]
    = Raise (KeyError "features") /\
  predict_all {| models := ∅; scalers := ∅ |} [28; 75; 1013; 10.8]
    = Raise (KeyError "features").
Proof.
  apply (prediction_errors_when_not_set_up {| models := ∅; scalers := ∅ |}).
  reflexivity.
Defined.

(** ** Rounding of the outputs *)









(** ** The ensemble as a blend *)





(** ** Alerts in the prediction response *)


Lemma predict_weather_Success_inv
    (self : WeatherMLModels) (data : predict_request)
    (t : temperature_prediction) (fps : list prediction) (risks : list risk) :
  predict_weather self data = PredictSuccess t fps risks ->
  predict_temperature self (extract_features (default ∅ (current_weather data)))
    = Ok t /\
  match default ∅ (forecast data) !! "list" with
  | Some series => forecast_loop self series = Ok fps
  | None => fps = []
  end /\
  risks = assess_risks t (extract_features (default ∅ (current_weather data))) fps.
Proof.
  unfold predict_weather.
  destruct (predict_temperature self _) as [t' |]; [| discriminate].
  rewrite bind_Ok.
  destruct (default ∅ (forecast data) !! "list") as [series |].
  - destruct (forecast_loop self series) as [fps' |]; [| discriminate].
    rewrite bind_Ok. intros [= <- <- <-]. repeat split.
  - rewrite bind_Ok. intros [= <- <- <-]. repeat split.
Qed.



(** A request without a forecast list, or with an empty one, gets no
    forecast predictions and never a drought alert. *)
Theorem no_forecast_no_drought
    (self : WeatherMLModels) (data : predict_request)
    (t : temperature_prediction) (fps : list prediction) (risks : list risk) :
  default ∅ (forecast data) !! "list" = None \/
  default ∅ (forecast data) !! "list" = Some [] ->
  predict_weather self data = PredictSuccess t fps risks ->
  fps = [] /\ ~ In drought risks.
Proof.
  intros Hlist H. apply predict_weather_Success_inv in H as (_ & Hfps & ->).
  assert (E : fps = []).
  { destruct Hlist as [Hl | Hl]; rewrite Hl in Hfps; [exact Hfps |].
    unfold forecast_loop in Hfps. cbn in Hfps. now apply Ok_inj in Hfps. }
  subst fps. split; [reflexivity | apply no_drought_without_forecast].
Qed.

Lemma no_forecast_no_drought_witness :
  exists t fps risks,
    predict_weather (constant_store 30 31 32 70 1 40)
      {| current_weather := None; forecast := None |}
      = PredictSuccess t fps risks /\
    fps = [] /\ ~ In drought risks.
Proof.
  do 3 eexists.
  assert (E : predict_weather (constant_store 30 31 32 70 1 40)
      {| current_weather := None; forecast := None |}
      = PredictSuccess {| temp := 156 # 5; confidence := 95.8 |} [] [])
    by (vm_compute; reflexivity).
  split; [exact E |].
  eapply (no_forecast_no_drought (constant_store 30 31 32 70 1 40)
            {| current_weather := None; forecast := None |});
    [left; reflexivity | exact E].
Defined.

(** ** Forecast entries *)







(** ** Failures of the prediction endpoint *)










Lemma mapM_agree {A B : Type} (f g : A -> result B) (l : list A) :
  (forall x, x ∈ l -> f x = g x) -> mapM f l = mapM g l.
Proof.
  induction l as [| x l IH]; intros H; [reflexivity |].
  cbn [mapM]. rewrite (H x) by now left.
  rewrite IH; [reflexivity |]. intros y Hy. apply H. now right.
Qed.

(** Every index the loop visits is a multiple of 8 below both 56 and the
    length of the series. *)
Lemma sampled_indices_valid (series : list weather_item) (i : nat) :
  i ∈ sampled_indices series ->
  exists k, i = (8 * k)%nat /\ (k < 7)%nat /\ (i < length series)%nat.
Proof.
  rewrite sampled_indices_every_8th. intros Hi.
  apply list_elem_of_fmap in Hi as (k & -> & Hk).
  apply elem_of_seq in Hk as [_ Hk]. exists k. repeat split; lia.
Qed.







(** Only the sampled entries of a forecast series reach the response:
    two requests with the same current weather, whose series have the
    same length up to the cap of 56 and agree at positions 0, 8, ..., 48,
    get the same answer, whatever the other entries hold. *)
Theorem only_sampled_entries_matter
    (self : WeatherMLModels) (data1 data2 : predict_request)
    (series1 series2 : list weather_item) :
  current_weather data1 = current_weather data2 ->
  default ∅ (forecast data1) !! "list" = Some series1 ->
  default ∅ (forecast data2) !! "list" = Some series2 ->
  Nat.min 56 (length series1) = Nat.min 56 (length series2) ->
  (forall k, (k < 7)%nat -> series1 !! (8 * k)%nat = series2 !! (8 * k)%nat) ->
  predict_weather self data1 = predict_weather self data2.
Proof.
  intros Hcw Hl1 Hl2 Hmin Hagree.
  assert (Hloop : forecast_loop self series1 = forecast_loop self series2).
  { unfold forecast_loop.
    assert (Hidx : sampled_indices series1 = sampled_indices series2)
      by (unfold sampled_indices; now rewrite Hmin).
    rewrite <- Hidx. apply mapM_agree. intros i Hi.
    apply sampled_indices_valid in Hi as (k & -> & Hk & _).
    unfold index. now rewrite (Hagree k Hk). }
  unfold predict_weather. now rewrite Hcw, Hl1, Hl2, Hloop.
Qed.

Lemma only_sampled_entries_matter_witness :
  predict_weather (constant_store 30 31 32 70 1 40)
    {| current_weather := None;
       forecast := Some {[ "list" := sample_series ]} |} =
  predict_weather (constant_store 30 31 32 70 1 40)
    {| current_weather := None;
       forecast := Some {[ "list" := <[3%nat := ∅]> sample_series ]} |}.
Proof.
  apply (only_sampled_entries_matter _ _ _ sample_series
           (<[3%nat := ∅]> sample_series)).
  - reflexivity.
  - reflexivity.
  - reflexivity.
  - reflexivity.
  - intros k Hk. do 7 (destruct k as [| k]; [reflexivity |]). lia.
Defined.

(** ** Successful retraining *)

Lemma train_models_Ok_inv (run : training_run) (self self' : WeatherMLModels)
    (u : unit) :
  train_models run self = (self', Ok u) ->
  exists u0 transform temp_lr temp_rf temp_gb hm rm am,
    create_training_data run = Ok u0 /\
    scaler_fit_transform run = Ok transform /\
    temp_lr_fit run = Ok temp_lr /\ temp_rf_fit run = Ok temp_rf /\
    temp_gb_fit run = Ok temp_gb /\
    humidity_model_fit run = Ok hm /\ rainfall_model_fit run = Ok rm /\
    aqi_model_fit run = Ok am /\ save_models run = Ok u /\
    self' = fully_trained transform temp_lr temp_rf temp_gb hm rm am self.
Proof.
  destruct run as [cd sf tl tr tg hm rm am sv]. run_stmt.
  destruct cd as [u0 |]; [| discriminate].
  destruct sf as [f |]; [| discriminate].
  destruct tl as [l |]; [| discriminate].
  destruct tr as [r |]; [| discriminate].
  destruct tg as [g |]; [| discriminate].
  destruct hm as [h |]; [| discriminate].
  destruct rm as [rn |]; [| discriminate].
  destruct am as [a |]; [| discriminate].
  destruct sv as [u1 |]; [| discriminate].
  intros [= <- <-]. exists u0, f, l, r, g, h, rn, a. repeat split.
Qed.

Lemma train_models_Ok_intro (run : training_run) (self : WeatherMLModels)
    (u0 u : unit) (transform : list Q -> list Q)
    (temp_lr temp_rf temp_gb hm rm am : regressor) :
  create_training_data run = Ok u0 ->
  scaler_fit_transform run = Ok transform ->
  temp_lr_fit run = Ok temp_lr -> temp_rf_fit run = Ok temp_rf ->
  temp_gb_fit run = Ok temp_gb ->
  humidity_model_fit run = Ok hm -> rainfall_model_fit run = Ok rm ->
  aqi_model_fit run = Ok am -> save_models run = Ok u ->
  train_models run self
    = (fully_trained transform temp_lr temp_rf temp_gb hm rm am self, Ok u).
Proof.
  intros H1 H2 H3 H4 H5 H6 H7 H8 H9.
  cbv beta delta [train_models mbind stmt_bind call set_scaler set_model].
  rewrite H1, H2, H3, H4, H5, H6, H7, H8, H9. reflexivity.
Qed.

Lemma retrain_models_Success_inv (run : training_run)
    (ml_models ml_models' : WeatherMLModels) (msg : string) :
  retrain_models run ml_models = (ml_models', RetrainSuccess msg) ->
  msg = "Models retrained successfully" /\
  exists u, train_models run ml_models = (ml_models', Ok u).
Proof.
  unfold retrain_models.
  destruct (train_models run ml_models) as [self' [u | e]]; intros [= <- <-]; eauto.
Qed.

Lemma fully_trained_models (transform : list Q -> list Q)
    (l r g h rn a : regressor) (self : WeatherMLModels) (key : string) :
  models (fully_trained transform l r g h rn a self) !! key =
  if decide (key = "aqi") then Some (Estimator a)
  else if decide (key = "rainfall") then Some (Estimator rn)
  else if decide (key = "humidity") then Some (Estimator h)
  else if decide (key = "temp_ensemble")
       then Some (EnsembleDict {| lr := l; rf := r; gb := g;
                                  weights := [0.2; 0.4; 0.4] |})
  else models self !! key.
Proof.
  unfold fully_trained. cbn [with_model with_scaler models].
  rewrite !lookup_insert. repeat case_decide; congruence.
Qed.

Lemma fully_trained_scalers (transform : list Q -> list Q)
    (l r g h rn a : regressor) (self : WeatherMLModels) (key : string) :
  scalers (fully_trained transform l r g h rn a self) !! key =
  if decide (key = "features") then Some (Fitted transform)
  else scalers self !! key.
Proof.
  unfold fully_trained. cbn [with_model with_scaler scalers].
  rewrite !lookup_insert. repeat case_decide; congruence.
Qed.

Lemma container_eq (self1 self2 : WeatherMLModels) :
  (forall key, models self1 !! key = models self2 !! key) ->
  (forall key, scalers self1 !! key = scalers self2 !! key) ->
  self1 = self2.
Proof.
  destruct self1 as [m1 s1], self2 as [m2 s2]. cbn [models scalers].
  intros Hm Hs. f_equal; now apply map_eq.
Qed.

Lemma fully_trained_twice (transform : list Q -> list Q)
    (l r g h rn a : regressor) (self : WeatherMLModels) :
  fully_trained transform l r g h rn a (fully_trained transform l r g h rn a self)
  = fully_trained transform l r g h rn a self.
Proof.
  apply container_eq; intros key.
  - rewrite !fully_trained_models. repeat case_decide; reflexivity.
  - rewrite !fully_trained_scalers. repeat case_decide; reflexivity.
Qed.

Lemma fully_trained_ready (transform : list Q -> list Q)
    (l r g h rn a : regressor) (self : WeatherMLModels) :
  ready (fully_trained transform l r g h rn a self).
Proof.
  split.
  - exists transform. now rewrite fully_trained_scalers.
  - eexists. rewrite fully_trained_models. split; [reflexivity |].
    split; [reflexivity |]. cbn [weights]. intros H. vm_compute in H. discriminate H.
  - exists h. now rewrite fully_trained_models.
  - exists rn. now rewrite fully_trained_models.
  - exists a. now rewrite fully_trained_models.
Qed.

(** A retrain that reports success leaves a ready container: the scaler
    and the four model entries are the objects fitted in this run, the
    ensemble carries the weights [0.2, 0.4, 0.4], and entries under any
    other key are left as they were. *)
Theorem retrain_success_result (run : training_run)
    (ml_models ml_models' : WeatherMLModels) (msg : string) :
  retrain_models run ml_models = (ml_models', RetrainSuccess msg) ->
  ready ml_models' /\
  (exists transform temp_lr temp_rf temp_gb hm rm am,
     scaler_fit_transform run = Ok transform /\
     temp_lr_fit run = Ok temp_lr /\ temp_rf_fit run = Ok temp_rf /\
     temp_gb_fit run = Ok temp_gb /\ humidity_model_fit run = Ok hm /\
     rainfall_model_fit run = Ok rm /\ aqi_model_fit run = Ok am /\
     scalers ml_models' !! "features" = Some (Fitted transform) /\
     models ml_models' !! "temp_ensemble" =
       Some (EnsembleDict {| lr := temp_lr; rf := temp_rf; gb := temp_gb;
                             weights := [0.2; 0.4; 0.4] |}) /\
     models ml_models' !! "humidity" = Some (Estimator hm) /\
     models ml_models' !! "rainfall" = Some (Estimator rm) /\
     models ml_models' !! "aqi" = Some (Estimator am)) /\
  (forall key, key ∉ ["temp_ensemble"; "humidity"; "rainfall"; "aqi"] ->
     models ml_models' !! key = models ml_models !! key) /\
  (forall key, key <> "features" ->
     scalers ml_models' !! key = scalers ml_models !! key).
Proof.
  intros H. apply retrain_models_Success_inv in H as (_ & u & H).
  apply train_models_Ok_inv in H
    as (u0 & f & l & r & g & h & rn & a & H1 & H2 & H3 & H4 & H5 & H6 & H7 & H8 & H9 & ->).
  split; [apply fully_trained_ready |].
  split; [| split].
  - exists f, l, r, g, h, rn, a.
    rewrite fully_trained_scalers, !fully_trained_models. repeat split; assumption.
  - intros key Hkey. rewrite fully_trained_models.
    repeat case_decide; try reflexivity; subst key; contradiction Hkey; set_solver.
  - intros key Hkey. rewrite fully_trained_scalers. now case_decide.
Qed.

Lemma retrain_success_result_witness :
  ready (fst (retrain_models (good_run 20 21 22 60 0 30)
                             {| models := ∅; scalers := ∅ |})).
Proof.
  eapply (retrain_success_result (good_run 20 21 22 60 0 30)
            {| models := ∅; scalers := ∅ |}).
  reflexivity.
Defined.

(** Retraining again with the same outcomes of the fitting calls changes
    nothing: the container is the one the first retrain left. *)
Theorem retrain_twice_same_container (run : training_run)
    (ml_models ml_models' : WeatherMLModels) (msg : string) :
  retrain_models run ml_models = (ml_models', RetrainSuccess msg) ->
  retrain_models run ml_models' = (ml_models', RetrainSuccess msg).
Proof.
  intros H. apply retrain_models_Success_inv in H as (-> & u & H).
  apply train_models_Ok_inv in H
    as (u0 & f & l & r & g & h & rn & a & H1 & H2 & H3 & H4 & H5 & H6 & H7 & H8 & H9 & ->).
  unfold retrain_models.
  rewrite (train_models_Ok_intro run _ u0 u f l r g h rn a H1 H2 H3 H4 H5 H6 H7 H8 H9).
  now rewrite fully_trained_twice.
Qed.

Lemma retrain_twice_same_container_witness :
  retrain_models (good_run 20 21 22 60 0 30)
    (fst (retrain_models (good_run 20 21 22 60 0 30)
            (constant_store 30 31 32 70 1 40)))
  = (fst (retrain_models (good_run 20 21 22 60 0 30)
            (constant_store 30 31 32 70 1 40)),
     RetrainSuccess "Models retrained successfully").
Proof.
  apply (retrain_twice_same_container (good_run 20 21 22 60 0 30)
           (constant_store 30 31 32 70 1 40)).
  reflexivity.
Defined.

Lemma predict_all_by_lookups (self1 self2 : WeatherMLModels) (features : list Q) :
  scalers self1 !! "features" = scalers self2 !! "features" ->
  (forall key, key ∈ ["temp_ensemble"; "humidity"; "rainfall"; "aqi"] ->
     models self1 !! key = models self2 !! key) ->
  predict_temperature self1 features = predict_temperature self2 features /\
  predict_all self1 features = predict_all self2 features.
Proof.
  intros Hs Hm.
  assert (Hsc : scale self1 features = scale self2 features)
    by (unfold scale, getitem; now rewrite Hs).
  assert (Hg : forall key, key ∈ ["temp_ensemble"; "humidity"; "rainfall"; "aqi"] ->
                 getitem (models self1) key = getitem (models self2) key)
    by (intros key Hkey; unfold getitem; now rewrite (Hm key Hkey)).
  assert (Ht : predict_temperature self1 features = predict_temperature self2 features).
  { unfold predict_temperature. rewrite Hsc, (Hg "temp_ensemble") by set_solver.
    reflexivity. }
  split; [exact Ht |].
  unfold predict_all.
  rewrite Hsc, Ht, (Hg "humidity"), (Hg "rainfall"), (Hg "aqi") by set_solver.
  reflexivity.
Qed.

(** After a successful retrain, predictions are those of the newly fitted
    objects alone: two containers retrained with the same outcomes predict
    alike, whatever they held before. *)
Theorem retrain_forgets_previous_models (run : training_run)
    (a b a' b' : WeatherMLModels) (msg_a msg_b : string) (features : list Q) :
  retrain_models run a = (a', RetrainSuccess msg_a) ->
  retrain_models run b = (b', RetrainSuccess msg_b) ->
  predict_temperature a' features = predict_temperature b' features /\
  predict_all a' features = predict_all b' features.
Proof.
  intros Ha Hb.
  apply retrain_models_Success_inv in Ha as (_ & ua & Ha).
  apply retrain_models_Success_inv in Hb as (_ & ub & Hb).
  apply train_models_Ok_inv in Ha
    as (u0 & f & l & r & g & h & rn & q & H1 & H2 & H3 & H4 & H5 & H6 & H7 & H8 & H9 & ->).
  apply train_models_Ok_inv in Hb
    as (v0 & f' & l' & r' & g' & h' & rn' & q' & K1 & K2 & K3 & K4 & K5 & K6 & K7 & K8 & K9 & ->).
  assert (f' = f) by congruence. assert (l' = l) by congruence.
  assert (r' = r) by congruence. assert (g' = g) by congruence.
  assert (h' = h) by congruence. assert (rn' = rn) by congruence.
  assert (q' = q) by congruence. subst.
  apply predict_all_by_lookups.
  - now rewrite !fully_trained_scalers.
  - intros key Hkey. rewrite !fully_trained_models.
    repeat (apply elem_of_cons in Hkey as [-> | Hkey]; [reflexivity |]).
    apply elem_of_nil in Hkey. contradiction.
Qed.

Lemma retrain_forgets_previous_models_witness :
  predict_temperature
    (fst (retrain_models (good_run 20 21 22 60 0 30)
            (constant_store 30 31 32 70 1 40))) [28; 75; 1013; 10.8]
  = predict_temperature
      (fst (retrain_models (good_run 20 21 22 60 0 30)
              {| models := ∅; scalers := ∅ |})) [28; 75; 1013; 10.8] /\
  predict_all
    (fst (retrain_models (good_run 20 21 22 60 0 30)
            (constant_store 30 31 32 70 1 40))) [28; 75; 1013; 10.8]
  = predict_all
      (fst (retrain_models (good_run 20 21 22 60 0 30)
              {| models := ∅; scalers := ∅ |})) [28; 75; 1013; 10.8].
Proof.
  eapply (retrain_forgets_previous_models (good_run 20 21 22 60 0 30)
            (constant_store 30 31 32 70 1 40) {| models := ∅; scalers := ∅ |});
    reflexivity.
Defined.

(** ** Failed retraining and readiness *)

Ltac in_list := repeat first [apply list_elem_of_here | apply list_elem_of_further].

Lemma ready_refit (self : WeatherMLModels) (transform : list Q -> list Q) :
  ready self ->
  ready (with_scaler "features" (Fitted transform)
           (with_scaler "features" Unfitted self)).
Proof.
  intros [_ He Hh Hr Ha]. split; cbn [with_scaler models scalers]; try assumption.
  exists transform. apply lookup_insert_eq.
Qed.

Lemma ready_with_ensemble (self : WeatherMLModels) (l r g : regressor) :
  ready self ->
  ready (with_model "temp_ensemble"
           (EnsembleDict {| lr := l; rf := r; gb := g; weights := [0.2; 0.4; 0.4] |})
           self).
Proof.
  intros [Hs _ [h Hh] [rn Hr] [a Ha]]. split; cbn [with_model models scalers].
  - exact Hs.
  - eexists. rewrite lookup_insert_eq. split; [reflexivity |].
    split; [reflexivity |]. cbn [weights]. intros H. vm_compute in H. discriminate H.
  - exists h. now rewrite lookup_insert_ne.
  - exists rn. now rewrite lookup_insert_ne.
  - exists a. now rewrite lookup_insert_ne.
Qed.

Lemma ready_with_estimator (self : WeatherMLModels) (key : string) (m : regressor) :
  key ∈ ["humidity"; "rainfall"; "aqi"] ->
  ready self -> ready (with_model key (Estimator m) self).
Proof.
  intros Hkey [Hs (e & He & Hw) [h Hh] [rn Hr] [a Ha]].
  split; cbn [with_model models scalers].
  - exact Hs.
  - exists e. split; [| exact Hw]. rewrite lookup_insert_ne; [exact He |].
    intros ->.
    repeat (apply elem_of_cons in Hkey as [Hkey | Hkey]; [discriminate Hkey |]).
    now apply elem_of_nil in Hkey.
  - rewrite lookup_insert. case_decide; eauto.
  - rewrite lookup_insert. case_decide; eauto.
  - rewrite lookup_insert. case_decide; eauto.
Qed.

Lemma unfitted_raises (self : WeatherMLModels) (features : list Q) :
  scalers self !! "features" = Some Unfitted ->
  predict_temperature self features = Raise NotFittedError /\
  predict_all self features = Raise NotFittedError.
Proof.
  intros H. unfold predict_all, predict_temperature, scale.
  rewrite (getitem_Some _ _ _ H). split; reflexivity.
Qed.

(** A failed retrain of a ready container leaves it ready, so predictions
    keep being served (from whatever mix of old and new objects was
    assigned), except when the call that raised was the scaler's fit:
    then the scaler is left unfitted and both prediction functions raise
    [NotFittedError] from then on. *)
Theorem failed_retrain_and_readiness (run : training_run)
    (ml_models ml_models' : WeatherMLModels) (e : exn) :
  ready ml_models ->
  retrain_models run ml_models = (ml_models', RetrainFailure e) ->
  ((exists u, create_training_data run = Ok u) /\
   scaler_fit_transform run = Raise e ->
   forall features,
     predict_temperature ml_models' features = Raise NotFittedError /\
     predict_all ml_models' features = Raise NotFittedError) /\
  (~ ((exists u, create_training_data run = Ok u) /\
      scaler_fit_transform run = Raise e) ->
   ready ml_models').
Proof.
  intros Hready H.
  assert (Hleft : left_after_failure run ml_models e ml_models').
  { apply train_models_failure. unfold retrain_models in H.
    destruct (train_models run ml_models) as [self' [u | e0]];
      [discriminate H | now injection H as <- <-]. }
  clear H. destruct Hleft as [Hd | u Hd Hs | u f Hd Hs Ht
                              | u f l r g self1 Hd Hs Hl Hr Hg -> self' Hlater].
  - split; [| intros _; exact Hready].
    intros [[u Hu] _]. congruence.
  - split; [| intros Hn; contradiction Hn; eauto].
    intros _ features. apply unfitted_raises.
    cbn [with_scaler scalers]. apply lookup_insert_eq.
  - split; [intros [_ Hbad]; congruence |].
    intros _. now apply ready_refit.
  - split; [intros [_ Hbad]; congruence |].
    intros _.
    assert (Hr1 : ready (with_model "temp_ensemble"
                    (EnsembleDict {| lr := l; rf := r; gb := g;
                                     weights := [0.2; 0.4; 0.4] |})
                    (with_scaler "features" (Fitted f)
                       (with_scaler "features" Unfitted ml_models))))
      by now apply ready_with_ensemble, ready_refit.
    destruct Hlater as [_ | hm _ _ | hm rm _ _ _ | hm rm am _ _ _ _];
      repeat (apply ready_with_estimator; [in_list |]); exact Hr1.
Qed.

Lemma failed_retrain_and_readiness_witness :
  predict_temperature
    (fst (retrain_models (scaler_fit_fails 20 21 22 60 0 30)
            (constant_store 30 31 32 70 1 40))) [28; 75; 1013; 10.8]
  = Raise NotFittedError /\
  predict_all
    (fst (retrain_models (scaler_fit_fails 20 21 22 60 0 30)
            (constant_store 30 31 32 70 1 40))) [28; 75; 1013; 10.8]
  = Raise NotFittedError.
Proof.
  eapply (failed_retrain_and_readiness (scaler_fit_fails 20 21 22 60 0 30)
            (constant_store 30 31 32 70 1 40)).
  - apply constant_store_ready.
  - reflexivity.
  - split; [exists tt |]; reflexivity.
Defined.

(** ** Paths of the model files *)

Lemma append_cons (c : Ascii.ascii) (a s : string) :
  String c a +:+ s = String c (a +:+ s).
Proof. reflexivity. Qed.

Lemma append_length (a s : string) :
  String.length (a +:+ s) = (String.length a + String.length s)%nat.
Proof.
  induction a as [| c a IH]; [reflexivity |].
  rewrite append_cons. cbn [String.length]. now rewrite IH.
Qed.

Lemma append_inv_tail (a b s : string) : a +:+ s = b +:+ s -> a = b.
Proof.
  revert b. induction a as [| c a IH]; intros [| c' b] H.
  - reflexivity.
  - apply (f_equal String.length) in H. rewrite !append_length in H.
    cbn [String.length] in H. lia.
  - apply (f_equal String.length) in H. rewrite !append_length in H.
    cbn [String.length] in H. lia.
  - rewrite !append_cons in H. injection H as -> H. f_equal. now apply IH.
Qed.

Lemma model_path_inj (a b : string) : model_path a = model_path b -> a = b.
Proof.
  unfold model_path. intros H.
  apply (String.app_inj "models/") in H. now apply append_inv_tail in H.
Qed.

Lemma scaler_path_inj (a b : string) : scaler_path a = scaler_path b -> a = b.
Proof.
  unfold scaler_path. intros H.
  apply (String.app_inj "models/scaler_") in H. now apply append_inv_tail in H.
Qed.

(** What a loop of dumps leaves under a path: the object of the entry
    whose path it is, or what was there before. *)
Lemma dumps_lookup {V : Type} (path : string -> string) (wrap : V -> pickle)
    (entries : gmap string V) (files : gmap string pickle) :
  (forall a b, path a = path b -> a = b) ->
  (forall name v, entries !! name = Some v ->
     map_fold (λ name v fs, <[path name := wrap v]> fs) files entries !! path name
     = Some (wrap v)) /\
  (forall p, (forall name, is_Some (entries !! name) -> path name <> p) ->
     map_fold (λ name v fs, <[path name := wrap v]> fs) files entries !! p
     = files !! p).
Proof.
  intros Hinj.
  apply (map_fold_weak_ind
           (λ r m,
              (forall name v, m !! name = Some v -> r !! path name = Some (wrap v)) /\
              (forall p, (forall name, is_Some (m !! name) -> path name <> p) ->
                 r !! p = files !! p))).
  - split.
    + intros name v H. rewrite lookup_empty in H. discriminate H.
    + reflexivity.
  - intros i x m r Hi [IH1 IH2]. split.
    + intros name v H. apply lookup_insert_Some in H as [[<- <-] | [Hne H]].
      * apply lookup_insert_eq.
      * rewrite lookup_insert_ne; [now apply IH1 |].
        intros Heq. apply Hne. now apply Hinj.
    + intros p Hp. rewrite lookup_insert_ne.
      * apply IH2. intros name Hname. apply Hp.
        destruct (decide (i = name)) as [<- | Hne].
        -- rewrite lookup_insert_eq. eauto.
        -- now rewrite lookup_insert_ne.
      * apply Hp. rewrite lookup_insert_eq. eauto.
Qed.

Lemma saved_model_file (self : WeatherMLModels) (files : gmap string pickle)
    (name : string) (m : model) :
  name ∈ ["temp_ensemble"; "humidity"; "rainfall"; "aqi"] ->
  models self !! name = Some m ->
  saved_files self files !! model_path name = Some (PickledModel m).
Proof.
  intros Hname Hm. unfold saved_files.
  destruct (dumps_lookup scaler_path PickledScaler (scalers self)
              (map_fold (λ model_name m fs,
                           <[model_path model_name := PickledModel m]> fs)
                        files (models self)) scaler_path_inj) as [_ Hother].
  rewrite Hother.
  - destruct (dumps_lookup model_path PickledModel (models self) files model_path_inj)
      as [Hin _]. now apply Hin.
  - intros k _ Heq. unfold scaler_path, model_path in Heq.
    apply (String.app_inj "models/") in Heq.
    repeat (apply elem_of_cons in Hname as [-> | Hname]; [discriminate Heq |]).
    now apply elem_of_nil in Hname.
Qed.

Lemma saved_scaler_file (self : WeatherMLModels) (files : gmap string pickle)
    (name : string) (sc : scaler) :
  scalers self !! name = Some sc ->
  saved_files self files !! scaler_path name = Some (PickledScaler sc).
Proof.
  intros Hsc. unfold saved_files.
  destruct (dumps_lookup scaler_path PickledScaler (scalers self)
              (map_fold (λ model_name m fs,
                           <[model_path model_name := PickledModel m]> fs)
                        files (models self)) scaler_path_inj) as [Hin _].
  now apply Hin.
Qed.

Lemma saved_other_file (self : WeatherMLModels) (files : gmap string pickle)
    (p : string) :
  (forall name, is_Some (models self !! name) -> model_path name <> p) ->
  (forall name, is_Some (scalers self !! name) -> scaler_path name <> p) ->
  saved_files self files !! p = files !! p.
Proof.
  intros Hm Hs. unfold saved_files.
  destruct (dumps_lookup scaler_path PickledScaler (scalers self)
              (map_fold (λ model_name m fs,
                           <[model_path model_name := PickledModel m]> fs)
                        files (models self)) scaler_path_inj) as [_ Hother].
  rewrite (Hother p Hs).
  destruct (dumps_lookup model_path PickledModel (models self) files model_path_inj)
    as [_ Hother']. now apply Hother'.
Qed.

(** ** Saving and loading *)

Ltac run_load :=
  cbv beta iota delta [load_models load_each mbind mret stmt_bind stmt_ret call
                       set_scaler set_model load_model load_scaler].

Lemma load_models_Ok (files : gmap string pickle) (self : WeatherMLModels)
    (m1 m2 m3 m4 : model) (sc : scaler) :
  files !! model_path "temp_ensemble" = Some (PickledModel m1) ->
  files !! model_path "humidity" = Some (PickledModel m2) ->
  files !! model_path "rainfall" = Some (PickledModel m3) ->
  files !! model_path "aqi" = Some (PickledModel m4) ->
  files !! scaler_path "features" = Some (PickledScaler sc) ->
  load_models files self =
  (with_scaler "features" sc
     (with_model "aqi" m4
        (with_model "rainfall" m3
           (with_model "humidity" m2 (with_model "temp_ensemble" m1 self)))),
   Ok tt).
Proof.
  intros H1 H2 H3 H4 H5. run_load.
  change "models/scaler_features.pkl" with (scaler_path "features").
  rewrite H1, H2, H3, H4, H5. reflexivity.
Qed.

(** A ready container that is saved and loaded back, into whatever
    container, predicts exactly as before: the five files written by
    [save_models] are the five that [load_models] reads. *)
Theorem save_then_load_predicts_alike
    (self other : WeatherMLModels) (files : gmap string pickle) :
  ready self ->
  exists loaded,
    load_models (saved_files self files) other = (loaded, Ok tt) /\
    ready loaded /\
    forall features,
      predict_temperature loaded features = predict_temperature self features /\
      predict_all loaded features = predict_all self features.
Proof.
  intros Hready.
  pose proof Hready as [[tr Hs] (e & He & _) [h Hh] [rn Hr] [a Ha]].
  assert (Hload := load_models_Ok (saved_files self files) other _ _ _ _ _
            (saved_model_file self files "temp_ensemble" _ ltac:(in_list) He)
            (saved_model_file self files "humidity" _ ltac:(in_list) Hh)
            (saved_model_file self files "rainfall" _ ltac:(in_list) Hr)
            (saved_model_file self files "aqi" _ ltac:(in_list) Ha)
            (saved_scaler_file self files "features" _ Hs)).
  eexists. split; [exact Hload |].
  assert (Hlookups :
    scalers (with_scaler "features" (Fitted tr)
       (with_model "aqi" (Estimator a)
          (with_model "rainfall" (Estimator rn)
             (with_model "humidity" (Estimator h)
                (with_model "temp_ensemble" (EnsembleDict e) other))))) !! "features"
    = scalers self !! "features" /\
    forall key, key ∈ ["temp_ensemble"; "humidity"; "rainfall"; "aqi"] ->
      models (with_scaler "features" (Fitted tr)
         (with_model "aqi" (Estimator a)
            (with_model "rainfall" (Estimator rn)
               (with_model "humidity" (Estimator h)
                  (with_model "temp_ensemble" (EnsembleDict e) other))))) !! key
      = models self !! key).
  { cbn [with_scaler with_model models scalers]. split.
    - now rewrite lookup_insert_eq.
    - intros key Hkey. rewrite !lookup_insert.
      repeat (apply elem_of_cons in Hkey as [-> | Hkey];
              [repeat case_decide; congruence |]).
      now apply elem_of_nil in Hkey. }
  destruct Hlookups as [Hls Hlm]. split.
  - destruct (predict_all_by_lookups _ self [] Hls Hlm) as [_ Hall].
    apply (predict_all_returns_aux _ []).
    rewrite Hall. now apply predict_all_returns.
  - intros features. now apply predict_all_by_lookups.
Qed.

Lemma save_then_load_predicts_alike_witness :
  exists loaded,
    load_models (saved_files (constant_store 30 31 32 70 1 40) ∅) new_container
      = (loaded, Ok tt) /\
    ready loaded /\
    forall features,
      predict_temperature loaded features
        = predict_temperature (constant_store 30 31 32 70 1 40) features /\
      predict_all loaded features
        = predict_all (constant_store 30 31 32 70 1 40) features.
Proof.
  apply save_then_load_predicts_alike. apply constant_store_ready.
Defined.

(** ** Keys of the container *)

Lemma standard_keys_with_model (self : WeatherMLModels) (key : string) (m : model) :
  key ∈ ["temp_ensemble"; "humidity"; "rainfall"; "aqi"] ->
  standard_keys self -> standard_keys (with_model key m self).
Proof.
  intros Hkey [Hm Hs]. split; cbn [with_model models scalers]; [| exact Hs].
  intros k Hk. rewrite lookup_insert in Hk. case_decide; [now subst | now apply Hm].
Qed.

Lemma standard_keys_with_scaler (self : WeatherMLModels) (sc : scaler) :
  standard_keys self -> standard_keys (with_scaler "features" sc self).
Proof.
  intros [Hm Hs]. split; cbn [with_scaler models scalers]; [exact Hm |].
  intros k Hk. rewrite lookup_insert in Hk. case_decide; [now subst | now apply Hs].
Qed.

Lemma standard_keys_new : standard_keys new_container.
Proof.
  split; intros key [x H]; cbn [new_container models scalers] in H;
    rewrite lookup_empty in H; discriminate H.
Qed.

Lemma train_models_standard_keys (run : training_run)
    (self self' : WeatherMLModels) (r : result unit) :
  standard_keys self -> train_models run self = (self', r) -> standard_keys self'.
Proof.
  intros Hk H. destruct r as [u | e].
  - apply train_models_Ok_inv in H
      as (u0 & f & l & rf' & g & h & rn & a & _ & _ & _ & _ & _ & _ & _ & _ & _ & ->).
    unfold fully_trained.
    repeat first [apply standard_keys_with_model; [in_list |]
                 | apply standard_keys_with_scaler]. exact Hk.
  - apply train_models_failure in H.
    destruct H as [_ | u _ _ | u f _ _ _ | u f l rf' g self1 _ _ _ _ _ -> s' Hlater].
    + exact Hk.
    + now apply standard_keys_with_scaler.
    + now do 2 apply standard_keys_with_scaler.
    + destruct Hlater as [_ | hm _ _ | hm rm _ _ _ | hm rm am _ _ _ _];
        repeat first [apply standard_keys_with_model; [in_list |]
                     | apply standard_keys_with_scaler]; exact Hk.
Qed.

Lemma load_each_standard_keys (files : gmap string pickle) (names : list string)
    (self self' : WeatherMLModels) (r : result unit) :
  (forall name, name ∈ names ->
     name ∈ ["temp_ensemble"; "humidity"; "rainfall"; "aqi"]) ->
  standard_keys self -> load_each files names self = (self', r) ->
  standard_keys self'.
Proof.
  revert self. induction names as [| name rest IH]; intros self Hnames Hk.
  - intros [= <- _]. exact Hk.
  - cbn [load_each]. cbv beta delta [mbind stmt_bind call set_model].
    destruct (load_model files (model_path name)) as [m | e].
    + apply IH.
      * intros n Hn. apply Hnames. now right.
      * apply standard_keys_with_model; [apply Hnames; now left | exact Hk].
    + intros [= <- _]. exact Hk.
Qed.

Lemma load_models_standard_keys (files : gmap string pickle)
    (self self' : WeatherMLModels) (r : result unit) :
  standard_keys self -> load_models files self = (self', r) -> standard_keys self'.
Proof.
  intros Hk. unfold load_models. cbv beta delta [mbind stmt_bind].
  destruct (load_each files _ self) as [self1 [u | e]] eqn:E.
  - apply load_each_standard_keys in E; [| now intros | exact Hk].
    cbv beta delta [call set_scaler].
    destruct (load_scaler files _) as [sc | e]; intros [= <- _];
      [now apply standard_keys_with_scaler | exact E].
  - apply load_each_standard_keys in E; [| now intros | exact Hk].
    intros [= <- _]. exact E.
Qed.

Lemma probe_not_written (self : WeatherMLModels) (files : gmap string pickle) :
  standard_keys self ->
  saved_files self files !! "models/ensemble_temp.pkl"
  = files !! "models/ensemble_temp.pkl".
Proof.
  intros [Hm Hs]. apply saved_other_file.
  - intros name Hname Heq. specialize (Hm name Hname).
    unfold model_path in Heq.
    apply (String.app_inj "models/" _ "ensemble_temp.pkl") in Heq.
    repeat (apply elem_of_cons in Hm as [-> | Hm]; [discriminate Heq |]).
    now apply elem_of_nil in Hm.
  - intros name Hname Heq. rewrite (Hs name Hname) in Heq. discriminate Heq.
Qed.

(** Whatever happens in them, [train_models] and [load_models] keep the
    container within its five keys: the four model names and the
    [features] scaler. *)
Theorem container_keys_stay_standard (run : training_run)
    (files : gmap string pickle) (self self' : WeatherMLModels) (r : result unit) :
  standard_keys self ->
  train_models run self = (self', r) \/ load_models files self = (self', r) ->
  standard_keys self'.
Proof.
  intros Hk [H | H].
  - exact (train_models_standard_keys run self self' r Hk H).
  - exact (load_models_standard_keys files self self' r Hk H).
Qed.

Lemma container_keys_stay_standard_witness :
  standard_keys (fst (train_models (save_fails 20 21 22 60 0 30) new_container)).
Proof.
  apply (container_keys_stay_standard (save_fails 20 21 22 60 0 30) ∅
           new_container _ (Raise OSError)).
  - apply standard_keys_new.
  - left. reflexivity.
Defined.

(** Startup never finds the models it saved: [initialize_models] probes
    [models/ensemble_temp.pkl], while [save_models] writes the ensemble to
    [models/temp_ensemble.pkl].  Starting without the probed file, a
    successful startup has trained, has written the ensemble file, and
    has left the probed file missing, so the next startup trains again. *)
Theorem startup_never_loads_what_it_saved (run : training_run)
    (files files' : gmap string pickle) (self' : WeatherMLModels) :
  files !! "models/ensemble_temp.pkl" = None ->
  startup run files = (self', Ok files') ->
  train_models run new_container = (self', Ok tt) /\
  files' = saved_files self' files /\
  (exists m, files' !! "models/temp_ensemble.pkl" = Some (PickledModel m)) /\
  files' !! "models/ensemble_temp.pkl" = None /\
  (forall run' self'' files'',
     startup run' files' = (self'', Ok files'') ->
     train_models run' new_container = (self'', Ok tt)).
Proof.
  intros Hprobe. unfold startup, initialize_models.
  rewrite bool_decide_eq_false_2 by (rewrite Hprobe; now intros [x Hx]).
  destruct (train_models run new_container) as [s [[] | e]] eqn:Et;
    intros [= <- <-].
  assert (Hk : standard_keys s)
    by exact (train_models_standard_keys run _ _ _ standard_keys_new Et).
  assert (Hprobe' : saved_files s files !! "models/ensemble_temp.pkl" = None)
    by now rewrite probe_not_written.
  split; [reflexivity |]. split; [reflexivity |]. split; [| split; [exact Hprobe' |]].
  - apply train_models_Ok_inv in Et
      as (u0 & f & l & r & g & h & rn & a & _ & _ & _ & _ & _ & _ & _ & _ & _ & ->).
    eexists. change "models/temp_ensemble.pkl" with (model_path "temp_ensemble").
    apply saved_model_file; [in_list |]. now rewrite fully_trained_models.
  - intros run' s'' files''.
    rewrite bool_decide_eq_false_2 by (rewrite Hprobe'; now intros [x Hx]).
    destruct (train_models run' new_container) as [s2 [[] | e]];
      intros [= <- _]; reflexivity.
Qed.

Lemma startup_never_loads_what_it_saved_witness :
  train_models (good_run 20 21 22 60 0 30) new_container
    = (fst (train_models (good_run 20 21 22 60 0 30) new_container), Ok tt) /\
  saved_files (fst (train_models (good_run 20 21 22 60 0 30) new_container)) ∅
    !! "models/ensemble_temp.pkl" = None.
Proof.
  destruct (startup_never_loads_what_it_saved (good_run 20 21 22 60 0 30) ∅
              (saved_files (fst (train_models (good_run 20 21 22 60 0 30)
                                   new_container)) ∅)
              (fst (train_models (good_run 20 21 22 60 0 30) new_container)))
    as (H1 & _ & _ & H4 & _).
  - reflexivity.
  - reflexivity.
  - split; [exact H1 | exact H4].
Defined.

(** ** Loading with a file missing *)

Lemma load_each_stops (files : gmap string pickle)
    (loaded : list string) (objects : list model)
    (name : string) (rest : list string) (self : WeatherMLModels) :
  Forall2 (λ n m, files !! model_path n = Some (PickledModel m)) loaded objects ->
  files !! model_path name = None ->
  load_each files (loaded ++ name :: rest)%list self =
  (foldl (λ s nm, with_model nm.1 nm.2 s) self (zip loaded objects), Raise OSError).
Proof.
  intros Hloaded Hmissing. revert self.
  induction Hloaded as [| n m loaded objects Hn _ IH]; intros self.
  - cbn [app load_each zip zip_with foldl].
    cbv beta delta [mbind stmt_bind call load_model]. now rewrite Hmissing.
  - cbn [app load_each zip zip_with foldl fst snd].
    cbv beta delta [mbind stmt_bind call set_model load_model]. rewrite Hn.
    cbv beta iota. apply IH.
Qed.

(** [load_models] stops at the first model file that is missing: it
    raises [FileNotFoundError] (an [OSError]), the models read before it
    are already assigned, and nothing after it is read, the scaler
    included. *)
Theorem load_models_missing_file (files : gmap string pickle)
    (loaded : list string) (objects : list model)
    (name : string) (rest : list string) (self : WeatherMLModels) :
  ["temp_ensemble"; "humidity"; "rainfall"; "aqi"] = (loaded ++ name :: rest)%list ->
  Forall2 (λ n m, files !! model_path n = Some (PickledModel m)) loaded objects ->
  files !! model_path name = None ->
  load_models files self =
  (foldl (λ s nm, with_model nm.1 nm.2 s) self (zip loaded objects), Raise OSError) /\
  scalers (fst (load_models files self)) = scalers self.
Proof.
  intros Hnames Hloaded Hmissing.
  assert (E : load_models files self =
              (foldl (λ s nm, with_model nm.1 nm.2 s) self (zip loaded objects),
               Raise OSError)).
  { unfold load_models. rewrite Hnames. cbv beta delta [mbind stmt_bind].
    now rewrite (load_each_stops files loaded objects name rest self Hloaded Hmissing). }
  split; [exact E |]. rewrite E. cbn [fst].
  clear. generalize self. generalize (zip loaded objects).
  induction l as [| [n m] l IH]; intros s; [reflexivity |].
  cbn [foldl fst snd]. now rewrite IH.
Qed.

Lemma load_models_missing_file_witness :
  load_models {[ model_path "temp_ensemble" := PickledModel (Estimator (λ _, 1)) ]}
    new_container =
  (foldl (λ s nm, with_model nm.1 nm.2 s) new_container
         (zip ["temp_ensemble"] [Estimator (λ _, 1)]), Raise OSError) /\
  scalers (fst (load_models
                  {[ model_path "temp_ensemble" := PickledModel (Estimator (λ _, 1)) ]}
                  new_container)) = scalers new_container.
Proof.
  apply (load_models_missing_file _ ["temp_ensemble"] [Estimator (λ _, 1)]
           "humidity" ["rainfall"; "aqi"]).
  - reflexivity.
  - constructor; [reflexivity | constructor].
  - reflexivity.
Defined.

(** ** Health check *)

(** The health check always says healthy; [models_loaded] is true exactly
    when the models dict has an entry, and it does not look at the
    scalers: a container whose scaler is unfitted still reports loaded
    models while both prediction functions raise. *)
Theorem health_check_only_counts_models (ml_models : WeatherMLModels) :
  status (health_check ml_models) = "healthy" /\
  (models_loaded (health_check ml_models) = true <->
   exists key m, models ml_models !! key = Some m) /\
  (forall sc, health_check (with_scaler "features" sc ml_models)
              = health_check ml_models) /\
  (forall key m features,
     models_loaded (health_check
       (with_scaler "features" Unfitted (with_model key m ml_models))) = true /\
     predict_all (with_scaler "features" Unfitted (with_model key m ml_models))
       features = Raise NotFittedError).
Proof.
  split; [reflexivity |]. split; [| split].
  - unfold health_check. cbn [models_loaded]. rewrite bool_decide_eq_true.
    split.
    + intros H. apply map_size_ne_0_lookup. lia.
    + intros H. apply map_size_ne_0_lookup in H. lia.
  - reflexivity.
  - intros key m features. split.
    + unfold health_check. cbn [models_loaded with_scaler with_model models].
      apply bool_decide_eq_true.
      assert (H : size (<[key := m]> (models ml_models)) <> 0%nat).
      { apply map_size_ne_0_lookup. exists key, m. apply lookup_insert_eq. }
      lia.
    + apply unfitted_raises. cbn [with_scaler scalers]. apply lookup_insert_eq.
Qed.

(** ** Sample evaluations of the statements above *)



